(** * Study planner: a shallow embedding of [study_planner.py]

    The scheduling core of the planner ([normalize_weights],
    [distribute_time], [split_into_sessions], [build_schedule]) and the
    memory loader ([load_memory]) are embedded as Rocq functions.

    - Python [int] is [Z]; Python [float] and numpy [float64] are IEEE-754
      binary64 values, taken from the Standard Library's [spec_float] with
      its correctly rounded operations at precision 53.
    - A [dict] is an association list in insertion order (the round-robin
      walk of [distribute_time] depends on that order).
    - A call either returns, raises, or exhausts the iteration budget of a
      [while] loop: the two loops of the program are not structurally
      recursive and one of them can run forever. *)

From Stdlib Require Import ZArith List String Ascii Bool Lia.
From Stdlib Require Import Floats.SpecFloat.
Import ListNotations.

Open Scope Z_scope.

(** ** Outcomes of a call *)

(** The exception classes the embedded code can meet.  All of them derive
    from Python's [Exception]. *)
Inductive exn : Type :=
| ValueError
| OverflowError
| ZeroDivisionError
| KeyError
| OSError
| IndexError
| UnicodeDecodeError
| JSONDecodeError.

Inductive outcome (A : Type) : Type :=
| Returned (a : A)
| Raised (e : exn)
| OutOfFuel.

Arguments Returned {A} a.
Arguments Raised {A} e.
Arguments OutOfFuel {A}.

Definition bind {A B : Type} (c : outcome A) (k : A -> outcome B) : outcome B :=
  match c with
  | Returned a => k a
  | Raised e => Raised e
  | OutOfFuel => OutOfFuel
  end.

Notation "x <- c ;; k" := (bind c (fun x => k))
  (at level 61, c at next level, right associativity).

(** [mapM f l] evaluates a comprehension [[f(x) for x in l]] left to right
    and stops at the first exception. *)
Fixpoint mapM {A B : Type} (f : A -> outcome B) (l : list A) : outcome (list B) :=
  match l with
  | [] => Returned []
  | x :: xs => y <- f x ;; ys <- mapM f xs ;; Returned (y :: ys)
  end.

(** ** [while] loops with an iteration budget *)

Section While.
Context {St : Type}.
Variable cond : St -> bool.
Variable body : St -> outcome St.

(** [while fuel s] runs [while cond(s): s = body(s)] for at most [fuel]
    iterations.  The guard is tested before an iteration is spent, so a
    loop whose guard is false at entry returns with no fuel at all. *)
Fixpoint while (fuel : nat) (s : St) : outcome St :=
  match fuel with
  | O => if cond s then OutOfFuel else Returned s
  | S fuel' => if cond s then bind (body s) (while fuel') else Returned s
  end.
End While.

(** ** Python floats *)

Module PyFloat.
Definition prec : Z := 53.
Definition emax : Z := 1024.

Definition float := spec_float.

Definition mul : float -> float -> float := SFmul prec emax.
Definition div : float -> float -> float := SFdiv prec emax.
Definition add : float -> float -> float := SFadd prec emax.

(** [x == 0] on floats: true for both zeros, false for NaN. *)
Definition eq_zero (x : float) : bool := SFeqb x (S754_zero false).

(** The nearest float to an integer, ties to even.  Integers beyond the
    largest float round to an infinity here. *)
Definition of_Z (z : Z) : float := binary_normalize prec emax z 0 false.

(** Conversion of an [int] operand in mixed arithmetic ([int * float]):
    Python raises [OverflowError] when the integer is too large. *)
Definition of_int (z : Z) : outcome float :=
  match of_Z z with
  | S754_infinity _ => Raised OverflowError
  | f => Returned f
  end.

(** The integer part of [m * 2^e]. *)
Definition magnitude (m : positive) (e : Z) : Z :=
  match e with
  | Z0 => Zpos m
  | Zpos p => Zpos m * 2 ^ Zpos p
  | Zneg p => Zpos m / 2 ^ Zpos p
  end.

(** [int(x)]: truncation toward zero; [ValueError] on NaN and
    [OverflowError] on an infinity. *)
Definition to_int (x : float) : outcome Z :=
  match x with
  | S754_zero _ => Returned 0
  | S754_nan => Raised ValueError
  | S754_infinity _ => Raised OverflowError
  | S754_finite s m e =>
      Returned (if s then - magnitude m e else magnitude m e)
  end.

(** A float that is not below zero: sign bit clear, or a zero, or NaN
    (which no conversion to [int] survives). *)
Definition nonneg (x : float) : bool :=
  match x with
  | S754_finite true _ _ => false
  | S754_infinity true => false
  | _ => true
  end.
End PyFloat.

(** ** Dictionaries *)

Section Dict.
Variable V : Type.

Definition dict := list (string * V).

Definition keys (d : dict) : list string := map fst d.
Definition values (d : dict) : list V := map snd d.

(** [d[k]], raising [KeyError] when [k] is absent. *)
Fixpoint dict_get (k : string) (d : dict) : outcome V :=
  match d with
  | [] => Raised KeyError
  | (k', v) :: rest => if String.eqb k k' then Returned v else dict_get k rest
  end.

(** [d[k] = v] for a key already present: the entry keeps its place. *)
Fixpoint dict_set (k : string) (v : V) (d : dict) : dict :=
  match d with
  | [] => [(k, v)]
  | (k', v') :: rest =>
      if String.eqb k k' then (k', v) :: rest else (k', v') :: dict_set k v rest
  end.
End Dict.

Arguments keys {V} d.
Arguments values {V} d.
Arguments dict_get {V} k d.
Arguments dict_set {V} k v d.

Definition zsum (l : list Z) : Z := fold_right Z.add 0 l.

(** ** [split_into_sessions] *)

Inductive kind : Type := study | break.

Definition kind_eqb (a b : kind) : bool :=
  match a, b with
  | study, study | break, break => true
  | _, _ => false
  end.

Definition session : Type := (Z * kind)%type.

(** State of the loop: the plan built so far and the minutes remaining. *)
Record split_state : Type := mkSplit { plan : list session; remaining : Z }.

Definition split_cond (s : split_state) : bool := 0 <? remaining s.

Definition split_body (focus_len short_break : Z) (s : split_state)
  : outcome split_state :=
  if remaining s <=? focus_len then
    Returned (mkSplit (plan s ++ [(remaining s, study)]) 0)
  else
    let plan1 := plan s ++ [(focus_len, study)] in
    let remaining1 := remaining s - focus_len in
    if 0 <? remaining1 then
      let b := Z.min short_break remaining1 in
      Returned (mkSplit (plan1 ++ [(b, break)]) (remaining1 - b))
    else
      Returned (mkSplit plan1 remaining1).

Definition split_into_sessions (fuel : nat) (minutes focus_len short_break : Z)
  : outcome (list session) :=
  s <- while split_cond (split_body focus_len short_break) fuel (mkSplit [] minutes) ;;
  Returned (plan s).

Definition durations (l : list session) : list Z := map fst l.


(** ** [normalize_weights] and [distribute_time] *)

Definition float_one : PyFloat.float := PyFloat.of_Z 1.

Section Planner.
(** [np_sum] is numpy's [ndarray.sum] on a one-dimensional [float64]
    array.  The order in which numpy accumulates is its own business
    (it sums pairwise), so the summation is left abstract. *)
Variable np_sum : list PyFloat.float -> PyFloat.float.

(** [now] is what [datetime.now().replace(second=0, microsecond=0)]
    reads from the clock. *)
Variable now : Z.

Definition normalize_weights (priorities : dict PyFloat.float)
  : dict PyFloat.float :=
  let arr := values priorities in
  if PyFloat.eq_zero (np_sum arr) then
    map (fun kv =>
           (fst kv,
            PyFloat.div float_one (PyFloat.of_Z (Z.of_nat (List.length priorities)))))
        priorities
  else
    let arr := map (fun v => PyFloat.div v (np_sum arr)) arr in
    combine (keys priorities) arr.

(** [int(total_minutes * w)] *)
Definition scaled_minutes (total_minutes : Z) (w : PyFloat.float) : outcome Z :=
  t <- PyFloat.of_int total_minutes ;;
  PyFloat.to_int (PyFloat.mul t w).

(** [keys[j]] with Python's indexing. *)
Definition list_get (l : list string) (j : Z) : outcome string :=
  let len := Z.of_nat (List.length l) in
  let j' := if j <? 0 then j + len else j in
  if (j' <? 0) || (len <=? j') then Raised IndexError
  else match nth_error l (Z.to_nat j') with
       | Some x => Returned x
       | None => Raised IndexError
       end.

(** [a % b] on integers: the sign follows the divisor, as [Z.modulo]. *)
Definition py_mod (a b : Z) : outcome Z :=
  if b =? 0 then Raised ZeroDivisionError else Returned (a mod b).

Record recon_state : Type := mkRecon { raw : dict Z; diff : Z; idx : Z }.

Definition recon_cond (ks : list string) (s : recon_state) : bool :=
  negb (diff s =? 0) && negb (match ks with [] => true | _ => false end).

Definition recon_body (ks : list string) (min_block : Z) (s : recon_state)
  : outcome recon_state :=
  m <- py_mod (idx s) (Z.of_nat (List.length ks)) ;;
  k <- list_get ks m ;;
  if 0 <? diff s then
    v <- dict_get k (raw s) ;;
    Returned (mkRecon (dict_set k (v + 1) (raw s)) (diff s - 1) (idx s + 1))
  else
    v <- dict_get k (raw s) ;;
    if min_block <? v then
      Returned (mkRecon (dict_set k (v - 1) (raw s)) (diff s + 1) (idx s + 1))
    else
      Returned (mkRecon (raw s) (diff s) (idx s + 1)).

(** The loop of lines 54-56: a subject at 0 is raised to [min_block] when
    the budget is at least [min_block]. *)
Definition bump (total_minutes min_block : Z) (d : dict Z) : dict Z :=
  map (fun kv =>
         if (snd kv =? 0) && (min_block <=? total_minutes)
         then (fst kv, min_block) else kv) d.

(** Lines 53-56: the truncated shares, then the bump. *)
Definition initial_allocation (total_minutes : Z)
           (weights : dict PyFloat.float) (min_block : Z) : outcome (dict Z) :=
  raw0 <- mapM (fun kv => n <- scaled_minutes total_minutes (snd kv) ;;
                          Returned (fst kv, n)) weights ;;
  Returned (bump total_minutes min_block raw0).

Definition distribute_time (fuel : nat) (total_minutes : Z)
           (weights : dict PyFloat.float) (min_block : Z) : outcome (dict Z) :=
  if total_minutes <=? 0 then
    Returned (map (fun kv => (fst kv, 0)) weights)
  else
    raw1 <- initial_allocation total_minutes weights min_block ;;
    let diff0 := total_minutes - zsum (values raw1) in
    let ks := keys weights in
    s <- while (recon_cond ks) (recon_body ks min_block) fuel
               (mkRecon raw1 diff0 0) ;;
    Returned (raw s).

(** ** [build_schedule] *)

(** A [datetime] is counted in whole minutes since 0001-01-01 00:00; the
    seconds it may carry are untouched by [timedelta(minutes=...)] and do
    not show in the [%H:%M] rendering.  [datetime.max] falls in the last
    minute of year 9999. *)
Definition datetime_minutes : Z := 3652059 * 1440.

(** [t + timedelta(minutes=d)], [OverflowError] outside years 1..9999. *)
Definition datetime_add (t d : Z) : outcome Z :=
  if (0 <=? t + d) && (t + d <? datetime_minutes) then Returned (t + d)
  else Raised OverflowError.

Definition digit (n : Z) : ascii := ascii_of_nat (48 + Z.to_nat n).

Definition two_digits (n : Z) : string :=
  String (digit (n / 10)) (String (digit (n mod 10)) EmptyString).

(** [t.strftime("%H:%M")] *)
Definition strftime_HM (t : Z) : string :=
  (two_digits ((t / 60) mod 24) ++ ":" ++ two_digits (t mod 60))%string.

Record row : Type := mkRow {
  start : string;
  end_ : string;
  duration_min : Z;
  type : kind;
  subject : string
}.

Record sched_state : Type := mkSched {
  rows : list row;
  cur : Z;
  study_block_counter : Z
}.

(** One turn of the inner [for dur, kind in sessions] loop. *)
Definition emit (subj : string) (long_break_every long_break_len : Z)
           (st : sched_state) (s : session) : outcome sched_state :=
  let '(dur, knd) := s in
  e <- datetime_add (cur st) dur ;;
  let rows1 :=
    rows st ++ [mkRow (strftime_HM (cur st)) (strftime_HM e) dur knd
                      (if kind_eqb knd study then subj else EmptyString)] in
  if kind_eqb knd study then
    let c := study_block_counter st + 1 in
    m <- py_mod c long_break_every ;;
    if m =? 0 then
      l_end <- datetime_add e long_break_len ;;
      Returned (mkSched
                  (rows1 ++ [mkRow (strftime_HM e) (strftime_HM l_end)
                                   long_break_len break EmptyString])
                  l_end c)
    else Returned (mkSched rows1 e c)
  else Returned (mkSched rows1 e (study_block_counter st)).

(** A [for] loop whose body may raise. *)
Fixpoint foldM {A B : Type} (f : A -> B -> outcome A) (l : list B) (a : A)
  : outcome A :=
  match l with
  | [] => Returned a
  | x :: xs => a' <- f a x ;; foldM f xs a'
  end.

(** One turn of the outer [for subj in subjects] loop. *)
Definition schedule_subject (fuel : nat) (per_subject : dict Z)
           (focus_len short_break long_break_every long_break_len : Z)
           (st : sched_state) (subj : string) : outcome sched_state :=
  minutes <- dict_get subj per_subject ;;
  sessions <- split_into_sessions fuel minutes focus_len short_break ;;
  foldM (emit subj long_break_every long_break_len) sessions st.

(** Lines 99-125: both loops, from an empty table, the start time and a
    counter at 0. *)
Definition schedule_blocks (fuel : nat) (per_subject : dict Z)
           (subjects : list string) (start_time : Z)
           (focus_len short_break long_break_every long_break_len : Z)
  : outcome sched_state :=
  foldM (schedule_subject fuel per_subject focus_len short_break
                          long_break_every long_break_len)
        subjects (mkSched [] start_time 0).

(** [start_time or datetime.now().replace(second=0, microsecond=0)] *)
Definition effective_start (start_time : option Z) : Z :=
  match start_time with Some t => t | None => now end.

Definition build_schedule (fuel : nat) (subjects : list string)
           (priorities : dict PyFloat.float) (total_minutes : Z)
           (start_time : option Z)
           (focus_len short_break long_break_every long_break_len : Z)
  : outcome (list row) :=
  let start_time := effective_start start_time in
  let weights := normalize_weights priorities in
  per_subject <- distribute_time fuel total_minutes weights
                                 (Z.min 25 total_minutes) ;;
  st <- schedule_blocks fuel per_subject subjects start_time
                        focus_len short_break long_break_every long_break_len ;;
  Returned (rows st).
End Planner.

(** ** The memory file *)

(** JSON documents as [json.loads] builds them. *)
#[warnings="-register-all"]
Inductive json : Type :=
| JNull
| JBool (b : bool)
| JInt (z : Z)
| JFloat (x : PyFloat.float)
| JString (s : string)
| JList (items : list json)
| JDict (items : list (string * json)).

(** [planner_memory.json] as a call finds it: absent, or present, in which
    case [read_text(encoding="utf-8")] gives its text or raises (an I/O
    error, bytes that are not UTF-8). *)
Inductive memory_file : Type :=
| Absent
| Present (read_text : outcome string).

(** [{"last_plan": []}] *)
Definition empty_memory : json := JDict [("last_plan"%string, JList [])].

Section Memory.
(** [json.loads] of the standard library: a document or an exception. *)
Variable json_loads : string -> outcome json.

Definition load_memory (f : memory_file) : outcome json :=
  let fallback := Returned empty_memory in
  match f with
  | Present read_text =>
      match (text <- read_text ;; json_loads text) with
      | Returned mem => Returned mem
      | Raised _ => fallback
      | OutOfFuel => OutOfFuel
      end
  | Absent => fallback
  end.
End Memory.

(** ** The wizard's subject line *)

(** [s.split(c)] for a separator of one character. *)
Fixpoint split_on (c : ascii) (s : string) : list string :=
  match s with
  | EmptyString => [EmptyString]
  | String a rest =>
      if Ascii.eqb a c then EmptyString :: split_on c rest
      else match split_on c rest with
           | w :: ws => String a w :: ws
           | [] => [String a EmptyString]
           end
  end.

(** [s.split(c, 1)] when [c in s]: the text before the first [c] and the
    text after it; [None] when [c] is not in [s]. *)
Fixpoint split_once (c : ascii) (s : string) : option (string * string) :=
  match s with
  | EmptyString => None
  | String a rest =>
      if Ascii.eqb a c then Some (EmptyString, rest)
      else match split_once c rest with
           | Some (before, after) => Some (String a before, after)
           | None => None
           end
  end.

(** A string in a condition: true unless empty. *)
Definition truthy (s : string) : bool :=
  match s with EmptyString => false | String _ _ => true end.

(** [try: x = c / except ValueError: x = fallback] *)
Definition except_value_error {A : Type} (c : outcome A) (fallback : A)
  : outcome A :=
  match c with
  | Raised ValueError => Returned fallback
  | other => other
  end.

(** What the wizard offers when no subject was typed. *)
Definition default_subjects : list string := ["Math"; "Python"; "AI"]%string.

Definition default_priorities : dict PyFloat.float :=
  [("Math", PyFloat.of_Z 3); ("Python", PyFloat.of_Z 2);
   ("AI", PyFloat.of_Z 4)]%string.

Section Wizard.
(** [str.strip()] and [float(str)] are Python's own; [float] raises
    [ValueError] on text that is not a number. *)
Variable strip : string -> string.
Variable float_of_string : string -> outcome PyFloat.float.

(** Lines 143-144: the answer, or nothing on a timeout, cut at the commas;
    blank pieces are dropped. *)
Definition subject_pairs (content : option string) : list string :=
  let sp_text := strip (match content with
                        | Some text => text
                        | None => EmptyString
                        end) in
  map strip (filter (fun p => truthy (strip p)) (split_on "," sp_text)).

(** One turn of the loop of lines 146-159. *)
Definition add_pair (acc : list string * dict PyFloat.float) (p : string)
  : outcome (list string * dict PyFloat.float) :=
  let '(subjects, priorities) := acc in
  match split_once ":" p with
  | Some (name, val) =>
      let name := strip name in
      pr <- except_value_error (float_of_string (strip val)) float_one ;;
      Returned (subjects ++ [name], dict_set name pr priorities)
  | None =>
      let name := strip p in
      Returned (subjects ++ [name], dict_set name float_one priorities)
  end.

(** Lines 143-162: the subjects and priorities the wizard hands on. *)
Definition wizard_subjects (content : option string)
  : outcome (list string * dict PyFloat.float) :=
  acc <- foldM add_pair (subject_pairs content) ([], []) ;;
  match fst acc with
  | [] => Returned (default_subjects, default_priorities)
  | _ :: _ => Returned acc
  end.
End Wizard.

(** * Vocabulary of the properties *)

(** ** Loop invariants *)

(** What the loop keeps: the plan and the remainder account for the
    allocation, and the remainder never goes below zero. *)
Definition split_inv (minutes : Z) (s : split_state) : Prop :=
  zsum (durations (plan s)) + remaining s = minutes /\ 0 <= remaining s.

(** What the reconciliation loop keeps: [diff] is the distance between the
    budget and the sum of the allocations, every allocation is [ok], and
    the dictionary keeps its keys. *)
Definition recon_inv (ok : Z -> Prop) (total_minutes : Z) (ks : list string)
           (s : recon_state) : Prop :=
  diff s = total_minutes - zsum (values (raw s)) /\
  Forall ok (values (raw s)) /\
  keys (raw s) = ks.

(** A float with its sign bit clear, or NaN. *)
Definition sign_clear (x : PyFloat.float) : Prop :=
  match x with
  | S754_zero s | S754_infinity s | S754_finite s _ _ => s = false
  | S754_nan => True
  end.

(** ** Tables *)

(** What one turn of the inner loop appends to the table. *)
Definition emitted (subj : string) (long_break_len : Z) (t : Z) (s : session)
           (long : bool) : list row :=
  let '(dur, knd) := s in
  mkRow (strftime_HM t) (strftime_HM (t + dur)) dur knd
        (if kind_eqb knd study then subj else EmptyString)
  :: (if long
      then [mkRow (strftime_HM (t + dur)) (strftime_HM (t + dur + long_break_len))
                  long_break_len break EmptyString]
      else []).

Definition row_minutes (rs : list row) : Z := zsum (map duration_min rs).

Definition is_study (r : row) : bool := kind_eqb (type r) study.

Definition count_study (rs : list row) : Z :=
  Z.of_nat (List.length (filter is_study rs)).

Definition study_minutes (rs : list row) : Z :=
  row_minutes (filter is_study rs).

Definition break_minutes (rs : list row) : Z :=
  row_minutes (filter (fun r => negb (is_study r)) rs).

(** [timeline t rs]: the rows render a walk of the clock that starts at
    [t] and moves by each row's duration. *)
Fixpoint timeline (t : Z) (rs : list row) : Prop :=
  match rs with
  | [] => True
  | r :: rest =>
      start r = strftime_HM t /\
      end_ r = strftime_HM (t + duration_min r) /\
      timeline (t + duration_min r) rest
  end.

(** Contiguity as the rows show it: the first row starts at [first], and
    every row starts where the row before it ends. *)
Definition contiguous (first : string) (rs : list row) : Prop :=
  (forall r, nth_error rs 0 = Some r -> start r = first) /\
  (forall j r r', nth_error rs j = Some r -> nth_error rs (S j) = Some r' ->
                  start r' = end_ r).

(** [cadence lbe lbl c0 rs]: with [c0] study blocks counted before [rs],
    every study row of [rs] whose running count is a multiple of [lbe] is
    followed at once by a break row of [lbl] minutes. *)
Definition cadence (lbe lbl c0 : Z) (rs : list row) : Prop :=
  forall j r,
    nth_error rs j = Some r -> is_study r = true ->
    (c0 + count_study (firstn (S j) rs)) mod lbe = 0 ->
    exists lb, nth_error rs (S j) = Some lb /\
               type lb = break /\ duration_min lb = lbl.

(** ** The environment and sample inputs *)

(** Summation in array order, one way numpy may go about it. *)
Definition array_sum (l : list PyFloat.float) : PyFloat.float :=
  fold_left PyFloat.add l (S754_zero false).

(** [1.0 / n] *)
Definition uniform_weight (n : nat) : PyFloat.float :=
  PyFloat.div float_one (PyFloat.of_Z (Z.of_nat n)).

(** A parser that knows a single document; everything else is rejected
    the way [json.loads] rejects malformed text. *)
Definition loads_null_only (text : string) : outcome json :=
  if String.eqb text "null" then Returned JNull else Raised JSONDecodeError.

(** A run of [distribute_time] where the loop has work to do: three equal
    thirds of 100 minutes. *)
Definition third : PyFloat.float := PyFloat.div (PyFloat.of_Z 1) (PyFloat.of_Z 3).

Definition thirds : dict PyFloat.float :=
  [("A", third); ("B", third); ("C", third)]%string.

Definition thirds_alloc : dict Z := [("A", 34); ("B", 33); ("C", 33)]%string.

(** A zero-weight subject next to a subject that takes the whole budget,
    with a budget of exactly one minimum block. *)
Definition stuck_weights : dict PyFloat.float :=
  [("A", S754_zero false); ("B", PyFloat.of_Z 1)]%string.

Definition stuck_alloc : dict Z := [("A", 25); ("B", 25)]%string.

Definition zero_priorities : dict PyFloat.float :=
  [("Math", S754_zero false); ("Python", S754_zero false)]%string.

Definition example_subjects : list string := ["Math"; "Python"; "AI"]%string.

(** [{"Math": 3, "Python": 2, "AI": 4}], as [np.array(..., dtype=float)]
    reads it. *)
Definition example_priorities : dict PyFloat.float :=
  [("Math", PyFloat.of_Z 3); ("Python", PyFloat.of_Z 2);
   ("AI", PyFloat.of_Z 4)]%string.

(** The table for a day that starts at minute [t]. *)
Definition example_rows (t : Z) : list row :=
  [ mkRow (strftime_HM t) (strftime_HM (t + 45)) 45 study "Math";
    mkRow (strftime_HM (t + 45)) (strftime_HM (t + 55)) 10 break EmptyString;
    mkRow (strftime_HM (t + 55)) (strftime_HM (t + 60)) 5 study "Math";
    mkRow (strftime_HM (t + 60)) (strftime_HM (t + 100)) 40 study "Python";
    mkRow (strftime_HM (t + 100)) (strftime_HM (t + 120)) 20 break EmptyString;
    mkRow (strftime_HM (t + 120)) (strftime_HM (t + 165)) 45 study "AI";
    mkRow (strftime_HM (t + 165)) (strftime_HM (t + 175)) 10 break EmptyString;
    mkRow (strftime_HM (t + 175)) (strftime_HM (t + 200)) 25 study "AI"
  ]%string.

(** 2026-11-03 09:00, in minutes since 0001-01-01 00:00. *)
Definition nine_o_clock : Z := 1065488220.

(** ** Shapes of plans *)

Definition flip (k : kind) : kind :=
  match k with study => break | break => study end.

(** [alternates k l]: the kinds of [l] go [k], [flip k], [k], ... *)
Fixpoint alternates (k : kind) (l : list session) : Prop :=
  match l with
  | [] => True
  | b :: rest => snd b = k /\ alternates (flip k) rest
  end.

(** The kind that follows [n] alternating blocks that began with [k]. *)
Definition kind_after (k : kind) (n : nat) : kind :=
  if Nat.even n then k else flip k.

(** A block within its limits: a study block lasts between one minute and
    the focus length, a break between one minute and the short break. *)
Definition block_within (focus_len short_break : Z) (b : session) : Prop :=
  match snd b with
  | study => 1 <= fst b <= focus_len
  | break => 1 <= fst b <= short_break
  end.

(** What the splitter's loop keeps about the shape of the plan: it
    alternates from a study block, a new turn starts on an even number of
    blocks, and the plan is empty only before the first turn. *)
Definition split_shape (minutes : Z) (s : split_state) : Prop :=
  alternates study (plan s) /\
  (0 < remaining s -> Nat.even (List.length (plan s)) = true) /\
  (plan s = [] -> remaining s = minutes).

(** ** Floats and allocations *)

(** A float that [int()] accepts: a zero or a finite number. *)
Definition is_finite (x : PyFloat.float) : bool :=
  match x with
  | S754_zero _ | S754_finite _ _ _ => true
  | S754_infinity _ | S754_nan => false
  end.

(** Two dictionaries with the same keys in the same order whose values are
    related by [R], entry by entry. *)
Definition pointwise (R : Z -> Z -> Prop) (d0 d : dict Z) : Prop :=
  Forall2 (fun e0 e => fst e0 = fst e /\ R (snd e0) (snd e)) d0 d.

(** How the reconciliation may move an allocation [v0]: up when the
    allocations fall short of the budget, down but not below
    [min v0 min_block] when they exceed it. *)
Definition moved_toward (short : bool) (min_block v0 v : Z) : Prop :=
  if short then v0 <= v else Z.min v0 min_block <= v <= v0.

(** ** Rows of a schedule *)

(** A row is labelled as the assembler labels it: a study row carries one
    of the listed subjects, a break row carries no subject. *)
Definition row_labelled (subjects : list string) (r : row) : Prop :=
  match type r with
  | study => In (subject r) subjects
  | break => subject r = EmptyString
  end.

(** A row within its limits: a study row lasts between 1 and [focus_len]
    minutes; a break row is a short break of 1 to [short_break] minutes or
    a long break of [long_break_len] minutes. *)
Definition row_within (focus_len short_break long_break_len : Z) (r : row)
  : Prop :=
  match type r with
  | study => 1 <= duration_min r <= focus_len
  | break => 1 <= duration_min r <= short_break \/
             duration_min r = long_break_len
  end.

(** The minutes on the table that are not long breaks, for a state of the
    assembler's loops. *)
Definition planned_minutes (long_break_every long_break_len : Z)
           (st : sched_state) : Z :=
  row_minutes (rows st)
  - long_break_len * (study_block_counter st / long_break_every).

(** ** Slack above the minimum block *)

(** The minutes the reconciliation may still take away: what each
    allocation holds above the minimum block. *)
Definition slack (min_block : Z) (d : dict Z) : Z :=
  zsum (map (fun v => Z.max 0 (v - min_block)) (values d)).

(** Three subjects, two of them with weight zero, and a budget of 30. *)
Definition crowded_weights : dict PyFloat.float :=
  [("A", S754_zero false); ("B", S754_zero false); ("C", PyFloat.of_Z 1)]%string.

Definition crowded_alloc : dict Z := [("A", 25); ("B", 25); ("C", 30)]%string.

(** ** Study time in a plan *)

Definition session_is_study (b : session) : bool := kind_eqb (snd b) study.

(** The number of study blocks of a plan, and the minutes they hold. *)
Definition study_blocks (l : list session) : Z :=
  Z.of_nat (List.length (filter session_is_study l)).

Definition study_total (l : list session) : Z :=
  zsum (durations (filter session_is_study l)).

(** What the splitter's loop keeps about study time, with [j] study blocks
    on the plan: while minutes remain, [j] full rounds of focus and break
    are gone; at the end, [j] is the number of rounds started and the last
    one may have been cut short. *)
Definition split_rounds (minutes focus_len short_break : Z) (s : split_state)
  : Prop :=
  let j := study_blocks (plan s) in
  (0 < remaining s /\
   remaining s = minutes - j * (focus_len + short_break) /\
   study_total (plan s) = j * focus_len) \/
  (remaining s = 0 /\
   (j - 1) * (focus_len + short_break) < minutes <= j * (focus_len + short_break) /\
   study_total (plan s) = Z.min (j * focus_len) (minutes - (j - 1) * short_break)).

(** ** The wizard *)

(** Subjects and priorities that go together: every subject has a
    priority, every priority belongs to a listed subject, and no subject
    has two. *)
Definition consistent (acc : list string * dict PyFloat.float) : Prop :=
  Forall (fun subj => In subj (keys (snd acc))) (fst acc) /\
  (forall k, In k (keys (snd acc)) -> In k (fst acc)) /\
  NoDup (keys (snd acc)).

(** A stand-in for [str.strip()] that drops leading spaces only, and one
    for [float(str)] that knows no number at all. *)
Fixpoint lstrip_spaces (s : string) : string :=
  match s with
  | String " " rest => lstrip_spaces rest
  | other => other
  end.

Definition float_of_nothing (s : string) : outcome PyFloat.float :=
  Raised ValueError.

(** ** Room on the calendar *)

(** The minutes the listed subjects ask for: each occurrence of a subject
    counts its allocation, and a negative allocation counts for nothing. *)
Definition demand (per_subject : dict Z) (subjects : list string) : Z :=
  zsum (map (fun subj => match dict_get subj per_subject with
                         | Returned v => Z.max 0 v
                         | _ => 0
                         end) subjects).

(** * Properties *)

(** ** [while] loops *)

Section WhileFacts.
Context {St : Type}.
Variable cond : St -> bool.
Variable body : St -> outcome St.

Local Abbreviation loop := (while cond body).

Lemma while_exit fuel s : cond s = false -> loop fuel s = Returned s.
Proof. intros H. destruct fuel; simpl; rewrite H; reflexivity. Qed.

Lemma while_unroll fuel s s' :
  cond s = true -> body s = Returned s' ->
  loop (S fuel) s = loop fuel s'.
Proof. intros Hc Hb. simpl. rewrite Hc, Hb. reflexivity. Qed.

(** More fuel never changes an answer that was already reached. *)
Lemma while_mono fuel : forall fuel' s r,
  (fuel <= fuel')%nat ->
  loop fuel s = Returned r -> loop fuel' s = Returned r.
Proof.
  induction fuel as [|n IH]; intros m s r Hle H; simpl in H.
  - destruct (cond s) eqn:Hc; [discriminate|].
    rewrite while_exit; assumption.
  - destruct (cond s) eqn:Hc.
    + destruct m as [|m]; [lia|]. simpl. rewrite Hc.
      destruct (body s) as [s'| |]; simpl in *; try discriminate.
      apply IH; [lia|assumption].
    + rewrite while_exit; assumption.
Qed.

Lemma while_deterministic fuel fuel' s r r' :
  loop fuel s = Returned r -> loop fuel' s = Returned r' -> r = r'.
Proof.
  intros H H'.
  destruct (Nat.le_ge_cases fuel fuel') as [Hle|Hle].
  - apply (while_mono _ _ _ _ Hle) in H. congruence.
  - apply (while_mono _ _ _ _ Hle) in H'. congruence.
Qed.

(** Partial correctness: an invariant kept by the body holds at exit,
    where the guard is false. *)
Lemma while_invariant (Inv : St -> Prop) :
  (forall s s', Inv s -> cond s = true -> body s = Returned s' -> Inv s') ->
  forall fuel s r, Inv s -> loop fuel s = Returned r ->
                   Inv r /\ cond r = false.
Proof.
  intros Hstep. induction fuel as [|n IH]; intros s r Hi H; simpl in H.
  - destruct (cond s) eqn:Hc; [discriminate|].
    injection H as <-. auto.
  - destruct (cond s) eqn:Hc.
    + destruct (body s) as [s'| |] eqn:Hb; simpl in H; try discriminate.
      eapply IH; [|eassumption]. eapply Hstep; eassumption.
    + injection H as <-. auto.
Qed.

(** Total correctness: with a variant that the body decreases, a budget
    of [variant s] iterations is enough. *)
Lemma while_terminates (Inv : St -> Prop) (variant : St -> nat) :
  (forall s, Inv s -> cond s = true ->
     exists s', body s = Returned s' /\ Inv s' /\ (variant s' < variant s)%nat) ->
  forall fuel s, Inv s -> (variant s <= fuel)%nat ->
                 exists r, loop fuel s = Returned r.
Proof.
  intros Hstep. induction fuel as [|n IH]; intros s Hi Hv; simpl.
  - destruct (cond s) eqn:Hc; [|eauto].
    destruct (Hstep s Hi Hc) as (s' & _ & _ & Hlt). lia.
  - destruct (cond s) eqn:Hc; [|eauto].
    destruct (Hstep s Hi Hc) as (s' & Hb & Hi' & Hlt).
    rewrite Hb. simpl. apply IH; [assumption|lia].
Qed.

(** Divergence: from a set of states that the guard accepts and the body
    never leaves, no budget is enough. *)
Lemma while_diverges (Stuck : St -> Prop) :
  (forall s, Stuck s ->
     cond s = true /\ exists s', body s = Returned s' /\ Stuck s') ->
  forall fuel s, Stuck s -> loop fuel s = OutOfFuel.
Proof.
  intros Hstep. induction fuel as [|n IH]; intros s Hs;
    destruct (Hstep s Hs) as (Hc & s' & Hb & Hs'); simpl; rewrite Hc.
  - reflexivity.
  - rewrite Hb. simpl. apply IH. assumption.
Qed.
End WhileFacts.

(** ** Sums and dictionaries *)

Lemma zsum_app (l1 l2 : list Z) : zsum (l1 ++ l2) = zsum l1 + zsum l2.
Proof. induction l1 as [|x l1 IH]; simpl; [reflexivity|]. rewrite IH. lia. Qed.

Lemma durations_app (l1 l2 : list session) :
  durations (l1 ++ l2) = durations l1 ++ durations l2.
Proof. apply map_app. Qed.

Lemma zsum_durations_snoc (l : list session) (d : Z) (k : kind) :
  zsum (durations (l ++ [(d, k)])) = zsum (durations l) + d.
Proof. rewrite durations_app, zsum_app. simpl. lia. Qed.

Lemma bind_returned {A B : Type} (c : outcome A) (k : A -> outcome B) (b : B) :
  bind c k = Returned b -> exists a, c = Returned a /\ k a = Returned b.
Proof. destruct c as [a| |]; simpl; intros H; try discriminate. eauto. Qed.

Ltac bind_inv H :=
  let a := fresh "a" in
  let Ha := fresh "Hret" in
  apply bind_returned in H; destruct H as (a & Ha & H).

(** ** The session splitter *)

Section SplitFacts.
Variables minutes focus_len short_break : Z.

Lemma split_body_inv s s' :
  split_inv minutes s -> split_cond s = true ->
  split_body focus_len short_break s = Returned s' -> split_inv minutes s'.
Proof.
  unfold split_inv, split_cond, split_body.
  intros [Hsum Hpos] Hc Hb. apply Z.ltb_lt in Hc.
  destruct (remaining s <=? focus_len) eqn:Hle.
  - injection Hb as <-. simpl. rewrite zsum_durations_snoc. lia.
  - apply Z.leb_gt in Hle.
    destruct (0 <? remaining s - focus_len) eqn:Hrem;
      injection Hb as <-; simpl.
    + rewrite !zsum_durations_snoc. lia.
    + apply Z.ltb_ge in Hrem. rewrite zsum_durations_snoc. lia.
Qed.

Lemma split_body_decreases s :
  0 < focus_len -> 0 <= short_break -> split_inv minutes s -> split_cond s = true ->
  exists s', split_body focus_len short_break s = Returned s' /\
             split_inv minutes s' /\
             (Z.to_nat (remaining s') < Z.to_nat (remaining s))%nat.
Proof.
  intros Hf Hsb Hi Hc.
  destruct (split_body focus_len short_break s) as [s'| |] eqn:Hb.
  - exists s'. split; [reflexivity|]. split.
    + eapply split_body_inv; eassumption.
    + pose proof (split_body_inv s s' Hi Hc Hb) as [_ Hpos'].
      unfold split_cond in Hc. apply Z.ltb_lt in Hc.
      unfold split_body in Hb.
      destruct (remaining s <=? focus_len) eqn:Hle.
      * injection Hb as <-. simpl. lia.
      * apply Z.leb_gt in Hle.
        destruct (0 <? remaining s - focus_len) eqn:Hrem;
          injection Hb as <-; simpl in *; lia.
  - unfold split_body in Hb.
    destruct (remaining s <=? focus_len);
      [|destruct (0 <? remaining s - focus_len)]; discriminate.
  - unfold split_body in Hb.
    destruct (remaining s <=? focus_len);
      [|destruct (0 <? remaining s - focus_len)]; discriminate.
Qed.

(** Whatever the block lengths, a returned plan accounts for exactly the
    minutes asked for. *)
Lemma split_into_sessions_sum fuel l :
  0 <= minutes ->
  split_into_sessions fuel minutes focus_len short_break = Returned l ->
  zsum (durations l) = minutes.
Proof.
  intros Hm H. unfold split_into_sessions in H. bind_inv H.
  injection H as <-.
  apply (while_invariant split_cond (split_body focus_len short_break)
           (split_inv minutes) split_body_inv) in Hret.
  - destruct Hret as [[Hsum Hpos] Hc]. unfold split_cond in Hc.
    apply Z.ltb_ge in Hc. lia.
  - unfold split_inv. simpl. lia.
Qed.

Lemma split_into_sessions_returns fuel :
  0 <= minutes -> 0 < focus_len -> 0 <= short_break ->
  (Z.to_nat minutes <= fuel)%nat ->
  exists l, split_into_sessions fuel minutes focus_len short_break = Returned l.
Proof.
  intros Hm Hf Hsb Hfuel. unfold split_into_sessions.
  destruct (while_terminates split_cond (split_body focus_len short_break)
              (split_inv minutes) (fun s => Z.to_nat (remaining s))
              (fun s => split_body_decreases s Hf Hsb) fuel
              (mkSplit [] minutes)) as [r Hr].
  - unfold split_inv. simpl. lia.
  - simpl. assumption.
  - rewrite Hr. simpl. eauto.
Qed.
End SplitFacts.

Lemma split_into_sessions_mono fuel fuel' minutes focus_len short_break l :
  (fuel <= fuel')%nat ->
  split_into_sessions fuel minutes focus_len short_break = Returned l ->
  split_into_sessions fuel' minutes focus_len short_break = Returned l.
Proof.
  intros Hle H. unfold split_into_sessions in *. bind_inv H.
  rewrite (while_mono split_cond (split_body focus_len short_break)
             fuel fuel' _ _ Hle Hret).
  assumption.
Qed.

(** An allocation of nothing, or less, gives no block at all. *)
Lemma split_into_sessions_empty fuel minutes focus_len short_break :
  minutes <= 0 ->
  split_into_sessions fuel minutes focus_len short_break = Returned [].
Proof.
  intros Hm. unfold split_into_sessions.
  rewrite while_exit; [reflexivity|].
  unfold split_cond. simpl. apply Z.ltb_ge. assumption.
Qed.

(** An allocation within one focus block is a single study block. *)
Lemma split_into_sessions_single fuel minutes focus_len short_break :
  0 < minutes <= focus_len ->
  split_into_sessions (S fuel) minutes focus_len short_break =
  Returned [(minutes, study)].
Proof.
  intros [Hlo Hhi]. unfold split_into_sessions.
  rewrite (while_unroll split_cond (split_body focus_len short_break) fuel
             (mkSplit [] minutes) (mkSplit [(minutes, study)] 0)).
  - rewrite while_exit; reflexivity.
  - unfold split_cond. simpl. apply Z.ltb_lt. assumption.
  - unfold split_body. simpl.
    apply Z.leb_le in Hhi. rewrite Hhi. reflexivity.
Qed.

(** C5: for positive minutes, focus length and short break,
    [split_into_sessions] returns (an iteration budget of [minutes] is
    enough) and the durations of all its blocks, study and break together,
    sum to exactly [minutes]: short breaks are taken out of the
    allocation. *)
Theorem split_into_sessions_accounts_for_minutes :
  forall (fuel : nat) (minutes focus_len short_break : Z),
    0 < minutes -> 0 < focus_len -> 0 < short_break ->
    (Z.to_nat minutes <= fuel)%nat ->
    exists l,
      split_into_sessions fuel minutes focus_len short_break = Returned l /\
      zsum (durations l) = minutes.
Proof.
  intros fuel minutes focus_len short_break Hm Hf Hsb Hfuel.
  destruct (split_into_sessions_returns minutes focus_len short_break fuel)
    as [l Hl]; try lia.
  exists l. split; [assumption|].
  eapply split_into_sessions_sum; [|eassumption]. lia.
Qed.

Lemma split_into_sessions_accounts_for_minutes_witness :
  exists l, split_into_sessions 120 120 50 10 = Returned l /\
            zsum (durations l) = 120.
Proof.
  apply (split_into_sessions_accounts_for_minutes 120 120 50 10);
    [lia | lia | lia | apply Nat.leb_le; reflexivity].
Defined.

Lemma split_into_sessions_deterministic fuel fuel' minutes focus_len short_break l l' :
  split_into_sessions fuel minutes focus_len short_break = Returned l ->
  split_into_sessions fuel' minutes focus_len short_break = Returned l' ->
  l = l'.
Proof.
  intros H H'.
  destruct (Nat.le_ge_cases fuel fuel') as [Hle|Hle].
  - apply (split_into_sessions_mono _ _ _ _ _ _ Hle) in H. congruence.
  - apply (split_into_sessions_mono _ _ _ _ _ _ Hle) in H'. congruence.
Qed.

(** C2 (as the code behaves): [split_into_sessions(120, 50, 10)] returns
    study 50, break 10, study 50, break 10.  The second break uses up the
    last ten minutes, so no third study block follows. *)
Theorem split_120_50_10 :
  forall fuel : nat,
    (2 <= fuel)%nat ->
    split_into_sessions fuel 120 50 10 =
    Returned [(50, study); (10, break); (50, study); (10, break)].
Proof.
  intros fuel Hfuel.
  apply (split_into_sessions_mono 2 fuel); [assumption|reflexivity].
Qed.

Lemma split_120_50_10_witness :
  split_into_sessions 2 120 50 10 =
  Returned [(50, study); (10, break); (50, study); (10, break)].
Proof. apply (split_120_50_10 2). apply Nat.le_refl. Defined.

(** C2 as stated fails: no run returns the five-block sequence ending in
    a study block of 10. *)
Lemma split_120_50_10_not_five_blocks :
  ~ (exists fuel : nat,
        split_into_sessions fuel 120 50 10 =
        Returned [(50, study); (10, break); (50, study); (10, break);
                  (10, study)]).
Proof.
  intros [fuel H].
  assert (H2 : split_into_sessions 2 120 50 10 =
               Returned [(50, study); (10, break); (50, study); (10, break)])
    by reflexivity.
  pose proof (split_into_sessions_deterministic _ _ _ _ _ _ _ H H2) as Heq.
  discriminate Heq.
Qed.

(** ** Floats: signs survive rounding *)

Module PyFloatFacts.
Import PyFloat.

Lemma binary_round_aux_sign (s : bool) (m e : Z) (l : location) :
  match binary_round_aux prec emax s m e l with
  | S754_zero s' | S754_infinity s' | S754_finite s' _ _ => s' = s
  | S754_nan => True
  end.
Proof.
  unfold binary_round_aux.
  destruct (shr_fexp prec emax m e l) as [mrs' e'].
  destruct (shr_fexp prec emax _ e' loc_Exact) as [mrs'' e''].
  destruct (shr_m mrs''); [reflexivity| |exact I].
  destruct (e'' <=? emax - prec); reflexivity.
Qed.

Lemma of_Z_sign_clear (z : Z) : 0 < z -> sign_clear (of_Z z).
Proof.
  intros Hz. destruct z as [|p|p]; try lia.
  unfold of_Z, binary_normalize, binary_round.
  destruct (shl_align p 0 _) as [mz ez].
  apply (binary_round_aux_sign false (Zpos mz) ez loc_Exact).
Qed.

Lemma magnitude_nonneg (m : positive) (e : Z) : 0 <= magnitude m e.
Proof.
  destruct e as [|p|p]; unfold magnitude.
  - lia.
  - apply Z.mul_nonneg_nonneg; [lia|]. apply Z.pow_nonneg. lia.
  - apply Z.div_pos; [lia|]. apply Z.pow_pos_nonneg; lia.
Qed.

Lemma to_int_nonneg (x : float) (n : Z) :
  match x with S754_finite s _ _ => s = false | _ => True end ->
  to_int x = Returned n -> 0 <= n.
Proof.
  destruct x as [s|s| |s m e]; unfold to_int; intros Hs H; try discriminate.
  - injection H as <-. lia.
  - subst s. injection H as <-. apply magnitude_nonneg.
Qed.

(** The product of a positive integer and a weight that is not below
    zero truncates to a non-negative integer. *)
Lemma mul_sign_clear (t w : float) :
  sign_clear t -> nonneg w = true ->
  match mul t w with S754_finite s _ _ => s = false | _ => True end.
Proof.
  intros Ht Hw. unfold mul, SFmul.
  destruct t as [st|st| |st mt et]; destruct w as [sw|sw| |sw mw ew];
    simpl in *; try exact I.
  subst st. destruct sw; [discriminate|].
  pose proof (binary_round_aux_sign (xorb false false)
                (Zpos (mt * mw)) (et + ew) loc_Exact) as H.
  destruct (binary_round_aux prec emax (xorb false false)
              (Zpos (mt * mw)) (et + ew) loc_Exact); try exact I.
  exact H.
Qed.
End PyFloatFacts.

Lemma scaled_minutes_nonneg (total_minutes : Z) (w : PyFloat.float) (n : Z) :
  0 < total_minutes -> PyFloat.nonneg w = true ->
  scaled_minutes total_minutes w = Returned n -> 0 <= n.
Proof.
  intros Ht Hw H. unfold scaled_minutes in H. bind_inv H.
  apply PyFloatFacts.to_int_nonneg in H; [assumption|].
  apply PyFloatFacts.mul_sign_clear; [|assumption].
  pose proof (PyFloatFacts.of_Z_sign_clear _ Ht) as Hs.
  unfold PyFloat.of_int in Hret.
  destruct (PyFloat.of_Z total_minutes); try discriminate;
    injection Hret as <-; assumption.
Qed.

(** ** Dictionary updates *)

Section DictFacts.
Context {V : Type}.

Lemma dict_get_In (k : string) (d : dict V) (v : V) :
  dict_get k d = Returned v -> In v (values d).
Proof.
  induction d as [|[k' v'] d IH]; simpl; [discriminate|].
  destruct (String.eqb k k').
  - intros H. injection H as <-. left. reflexivity.
  - intros H. right. apply IH. assumption.
Qed.

Lemma dict_set_keys (k : string) (d : dict V) (v v' : V) :
  dict_get k d = Returned v -> keys (dict_set k v' d) = keys d.
Proof.
  induction d as [|[k' w] d IH]; simpl; [discriminate|].
  destruct (String.eqb k k'); simpl; [reflexivity|].
  intros H. f_equal. apply IH. assumption.
Qed.

Lemma dict_set_Forall (P : V -> Prop) (k : string) (d : dict V) (v' : V) :
  Forall P (values d) -> P v' -> Forall P (values (dict_set k v' d)).
Proof.
  intros Hd Hv. induction d as [|[k' w] d IH]; simpl.
  - constructor; [assumption|constructor].
  - simpl in Hd. inversion Hd as [|? ? Hw Hrest]; subst.
    destruct (String.eqb k k'); simpl; constructor; auto.
Qed.
End DictFacts.

Lemma dict_set_zsum (k : string) (d : dict Z) (v v' : Z) :
  dict_get k d = Returned v ->
  zsum (values (dict_set k v' d)) = zsum (values d) - v + v'.
Proof.
  induction d as [|[k' w] d IH]; simpl; [discriminate|].
  destruct (String.eqb k k'); simpl.
  - intros H. injection H as <-. lia.
  - intros H. rewrite (IH H). lia.
Qed.

(** ** The time distributor *)

Section DistributeFacts.
Variables (total_minutes min_block : Z) (ks : list string).

(** [ok] is a property of allocations that survives one more minute, and
    one minute less above the minimum block. *)
Variable ok : Z -> Prop.
Hypothesis ok_incr : forall v, ok v -> ok (v + 1).
Hypothesis ok_decr : forall v, ok v -> min_block < v -> ok (v - 1).

Lemma recon_body_inv s s' :
  recon_inv ok total_minutes ks s -> recon_cond ks s = true ->
  recon_body ks min_block s = Returned s' -> recon_inv ok total_minutes ks s'.
Proof.
  intros (Hdiff & Hok & Hkeys) _ Hb. unfold recon_body in Hb.
  bind_inv Hb. rename a into m. bind_inv Hb. rename a into k.
  destruct (0 <? diff s) eqn:Hd; bind_inv Hb; rename a into v;
    pose proof (proj1 (Forall_forall _ _) Hok v (dict_get_In _ _ _ Hret1))
      as Hv.
  - injection Hb as <-. unfold recon_inv. simpl.
    rewrite (dict_set_zsum k (raw s) v (v + 1) Hret1).
    rewrite (dict_set_keys k (raw s) v (v + 1) Hret1).
    repeat split; [lia| |assumption].
    apply dict_set_Forall; auto.
  - destruct (min_block <? v) eqn:Hlt; injection Hb as <-.
    + apply Z.ltb_lt in Hlt. unfold recon_inv. simpl.
      rewrite (dict_set_zsum k (raw s) v (v - 1) Hret1).
      rewrite (dict_set_keys k (raw s) v (v - 1) Hret1).
      repeat split; [lia| |assumption].
      apply dict_set_Forall; auto.
    + unfold recon_inv. simpl. auto.
Qed.

(** At exit with a non-empty key list, the allocations sum to the budget. *)
Lemma recon_exit fuel s0 s :
  ks <> [] ->
  recon_inv ok total_minutes ks s0 ->
  while (recon_cond ks) (recon_body ks min_block) fuel s0 = Returned s ->
  keys (raw s) = ks /\ Forall ok (values (raw s)) /\
  zsum (values (raw s)) = total_minutes.
Proof.
  intros Hne H0 H.
  apply (while_invariant _ _ (recon_inv ok total_minutes ks) recon_body_inv)
    in H; [|assumption].
  destruct H as [(Hdiff & Hok & Hkeys) Hc].
  repeat split; try assumption.
  unfold recon_cond in Hc. destruct ks; [congruence|].
  rewrite andb_true_r in Hc. apply negb_false_iff in Hc.
  apply Z.eqb_eq in Hc. lia.
Qed.
End DistributeFacts.

Lemma mapM_scaled_keys (total_minutes : Z) (weights : dict PyFloat.float)
      (raw0 : dict Z) :
  mapM (fun kv => n <- scaled_minutes total_minutes (snd kv) ;;
                  Returned (fst kv, n)) weights = Returned raw0 ->
  keys raw0 = keys weights.
Proof.
  revert raw0. induction weights as [|[k w] ws IH]; simpl; intros raw0 H.
  - injection H as <-. reflexivity.
  - bind_inv H. destruct a as [k' n]. bind_inv H. rename a into rest.
    injection H as <-. bind_inv Hret. injection Hret as <- _.
    simpl. f_equal. apply IH. assumption.
Qed.

Lemma mapM_scaled_nonneg (total_minutes : Z) (weights : dict PyFloat.float)
      (raw0 : dict Z) :
  0 < total_minutes ->
  Forall (fun w => PyFloat.nonneg w = true) (values weights) ->
  mapM (fun kv => n <- scaled_minutes total_minutes (snd kv) ;;
                  Returned (fst kv, n)) weights = Returned raw0 ->
  Forall (fun v => 0 <= v) (values raw0).
Proof.
  intros Ht. revert raw0.
  induction weights as [|[k w] ws IH]; simpl; intros raw0 Hw H.
  - injection H as <-. constructor.
  - inversion Hw as [|? ? Hw1 Hws]; subst.
    bind_inv H. destruct a as [k' n]. bind_inv H. rename a into rest.
    injection H as <-. bind_inv Hret. rename a into n'.
    injection Hret as <- <-. simpl.
    constructor; [|apply IH; assumption].
    eapply scaled_minutes_nonneg; eassumption.
Qed.

Lemma bump_nonneg (total_minutes min_block : Z) (d : dict Z) :
  0 <= min_block ->
  Forall (fun v => 0 <= v) (values d) ->
  Forall (fun v => 0 <= v) (values (bump total_minutes min_block d)).
Proof.
  intros Hmb. induction d as [|[k v] d IH]; simpl; intros H; [constructor|].
  inversion H as [|? ? Hv Hd]; subst.
  constructor; [|apply IH; assumption].
  destruct ((v =? 0) && (min_block <=? total_minutes)); simpl; assumption.
Qed.

Lemma bump_keys (total_minutes min_block : Z) (d : dict Z) :
  keys (bump total_minutes min_block d) = keys d.
Proof.
  induction d as [|[k v] d IH]; simpl; [reflexivity|].
  f_equal; [|assumption].
  destruct ((v =? 0) && (min_block <=? total_minutes)); reflexivity.
Qed.

(** Whatever the signs of the weights and of the minimum block, the
    minutes of a returned allocation sum to the budget. *)
Lemma distribute_time_sum fuel total_minutes weights min_block alloc :
  weights <> [] ->
  0 < total_minutes ->
  distribute_time fuel total_minutes weights min_block = Returned alloc ->
  keys alloc = keys weights /\ zsum (values alloc) = total_minutes.
Proof.
  intros Hne Ht H. unfold distribute_time in H.
  destruct (total_minutes <=? 0) eqn:Hle; [apply Z.leb_le in Hle; lia|].
  bind_inv H. rename a into raw1. bind_inv H. rename a into s.
  injection H as <-.
  unfold initial_allocation in Hret. bind_inv Hret. rename a into raw0.
  injection Hret as <-.
  assert (Hinit : recon_inv (fun _ => True) total_minutes (keys weights)
                    (mkRecon (bump total_minutes min_block raw0)
                       (total_minutes -
                        zsum (values (bump total_minutes min_block raw0))) 0)).
  { unfold recon_inv. simpl. repeat split.
    - apply Forall_forall. intros; exact I.
    - rewrite bump_keys. apply mapM_scaled_keys with (1 := Hret1). }
  assert (Hks : keys weights <> [])
    by (destruct weights; [congruence|discriminate]).
  destruct (recon_exit total_minutes min_block (keys weights)
              (fun _ => True) (fun _ _ => I) (fun _ _ _ => I)
              fuel _ s Hks Hinit Hret0) as (Hk & _ & Hs).
  auto.
Qed.

(** C3: for a non-empty weight map of weights that are not below zero, a
    budget above zero and a minimum block that is not negative, whenever
    [distribute_time] returns, every subject of the weight map has a
    non-negative number of minutes and the minutes sum to exactly
    [total_minutes]. *)
Theorem distribute_time_sums_to_total :
  forall (fuel : nat) (total_minutes : Z) (weights : dict PyFloat.float)
         (min_block : Z) (alloc : dict Z),
    weights <> [] ->
    0 < total_minutes ->
    0 <= min_block ->
    Forall (fun w => PyFloat.nonneg w = true) (values weights) ->
    distribute_time fuel total_minutes weights min_block = Returned alloc ->
    keys alloc = keys weights /\
    Forall (fun v => 0 <= v) (values alloc) /\
    zsum (values alloc) = total_minutes.
Proof.
  intros fuel total_minutes weights min_block alloc Hne Ht Hmb Hw H.
  unfold distribute_time in H.
  destruct (total_minutes <=? 0) eqn:Hle; [apply Z.leb_le in Hle; lia|].
  bind_inv H. rename a into raw1. bind_inv H. rename a into s.
  injection H as <-.
  unfold initial_allocation in Hret. bind_inv Hret. rename a into raw0.
  injection Hret as <-.
  assert (Hinit : recon_inv (fun v => 0 <= v) total_minutes (keys weights)
                    (mkRecon (bump total_minutes min_block raw0)
                       (total_minutes -
                        zsum (values (bump total_minutes min_block raw0))) 0)).
  { unfold recon_inv. simpl. repeat split.
    - apply bump_nonneg; [assumption|].
      apply (mapM_scaled_nonneg _ _ _ Ht Hw Hret1).
    - rewrite bump_keys. apply mapM_scaled_keys with (1 := Hret1). }
  assert (Hks : keys weights <> [])
    by (destruct weights; [congruence|discriminate]).
  apply (recon_exit total_minutes min_block (keys weights) (fun v => 0 <= v))
    with (fuel := fuel) (s0 := mkRecon (bump total_minutes min_block raw0)
                       (total_minutes -
                        zsum (values (bump total_minutes min_block raw0))) 0);
    try assumption.
  - intros v Hv. lia.
  - intros v Hv Hlt. lia.
Qed.

Lemma distribute_time_sums_to_total_witness :
  keys thirds_alloc = keys thirds /\
  Forall (fun v => 0 <= v) (values thirds_alloc) /\
  zsum (values thirds_alloc) = 100.
Proof.
  apply (distribute_time_sums_to_total 1 100 thirds 25 thirds_alloc).
  - discriminate.
  - lia.
  - lia.
  - repeat constructor.
  - vm_compute. reflexivity.
Defined.

Lemma distribute_time_mono fuel fuel' total_minutes weights min_block alloc :
  (fuel <= fuel')%nat ->
  distribute_time fuel total_minutes weights min_block = Returned alloc ->
  distribute_time fuel' total_minutes weights min_block = Returned alloc.
Proof.
  intros Hle H. unfold distribute_time in *.
  destruct (total_minutes <=? 0); [assumption|].
  bind_inv H. rewrite Hret. simpl. bind_inv H.
  rewrite (while_mono _ _ fuel fuel' _ _ Hle Hret0). assumption.
Qed.

(** C10: on an empty weight map and a budget above zero, [distribute_time]
    returns at once (the loop guard asks for a non-empty key list), and it
    returns the empty map, whose minutes sum to 0 and not to
    [total_minutes]. *)
Theorem distribute_time_empty :
  forall (fuel : nat) (total_minutes min_block : Z),
    0 < total_minutes ->
    distribute_time fuel total_minutes [] min_block = Returned [] /\
    zsum (values (@nil (string * Z))) = 0 /\
    zsum (values (@nil (string * Z))) <> total_minutes.
Proof.
  intros fuel total_minutes min_block Ht. split; [|split].
  - unfold distribute_time.
    destruct (total_minutes <=? 0) eqn:Hle; [apply Z.leb_le in Hle; lia|].
    simpl. rewrite while_exit; [reflexivity|].
    unfold recon_cond. apply andb_false_r.
  - reflexivity.
  - simpl. lia.
Qed.

Lemma distribute_time_empty_witness :
  distribute_time 0 180 [] 25 = Returned [] /\
  zsum (values (@nil (string * Z))) = 0 /\
  zsum (values (@nil (string * Z))) <> 180.
Proof. apply (distribute_time_empty 0 180 25). lia. Defined.

Lemma stuck_loop_diverges (fuel : nat) (i : Z) :
  while (recon_cond (keys stuck_weights)) (recon_body (keys stuck_weights) 25)
        fuel (mkRecon stuck_alloc (-25) i) = OutOfFuel.
Proof.
  apply (while_diverges _ _
           (fun s => raw s = stuck_alloc /\ diff s = -25)); [|split; reflexivity].
  intros [r d j] [Hr Hd]. simpl in Hr, Hd. subst r d.
  split; [reflexivity|].
  exists (mkRecon stuck_alloc (-25) (j + 1)). split; [|split; reflexivity].
  unfold recon_body, py_mod. simpl.
  assert (Hj : j mod 2 = 0 \/ j mod 2 = 1)
    by (pose proof (Z.mod_pos_bound j 2); lia).
  destruct Hj as [-> | ->]; reflexivity.
Qed.

(** C4: there is an input of [distribute_time], with a non-empty weight map
    and a budget above zero, where the bump lifts the allocations to 25 and
    25 against a budget of 25, no allocation is above the minimum block,
    and the reconciliation loop never ends: no iteration budget lets the
    call return. *)
Theorem distribute_time_can_run_forever :
  exists (weights : dict PyFloat.float) (total_minutes min_block : Z)
         (raw1 : dict Z),
    weights <> [] /\
    0 < total_minutes /\
    initial_allocation total_minutes weights min_block = Returned raw1 /\
    total_minutes < zsum (values raw1) /\
    Forall (fun v => v <= min_block) (values raw1) /\
    forall fuel : nat,
      distribute_time fuel total_minutes weights min_block = OutOfFuel.
Proof.
  exists stuck_weights, 25, 25, stuck_alloc.
  split; [discriminate|]. split; [lia|].
  split; [reflexivity|]. split; [simpl; lia|].
  split; [simpl; repeat (apply Forall_cons; [lia|]); apply Forall_nil|].
  intros fuel.
  change (distribute_time fuel 25 stuck_weights 25)
    with (s <- while (recon_cond (keys stuck_weights))
                     (recon_body (keys stuck_weights) 25) fuel
                     (mkRecon stuck_alloc (-25) 0) ;;
          Returned (raw s)).
  rewrite stuck_loop_diverges. reflexivity.
Qed.

(** The same input reaches the loop through [build_schedule]: priorities
    [{"A": 0, "B": 1}] and 25 minutes, with the array summed in order. *)
Lemma build_schedule_can_run_forever (now : Z) (fuel : nat) :
  build_schedule array_sum now fuel ["A"; "B"]%string
                 [("A", S754_zero false); ("B", PyFloat.of_Z 1)]%string
                 25 None 45 10 3 20 = OutOfFuel.
Proof.
  unfold build_schedule.
  change (normalize_weights array_sum
            [("A", S754_zero false); ("B", PyFloat.of_Z 1)]%string)
    with stuck_weights.
  change (Z.min 25 25) with 25.
  change (distribute_time fuel 25 stuck_weights 25)
    with (s <- while (recon_cond (keys stuck_weights))
                     (recon_body (keys stuck_weights) 25) fuel
                     (mkRecon stuck_alloc (-25) 0) ;;
          Returned (raw s)).
  rewrite stuck_loop_diverges. reflexivity.
Qed.

(** ** The weight normalizer *)

Example uniform_weight_2 : uniform_weight 2 = S754_finite false 4503599627370496 (-53).
Proof. reflexivity. Qed.

Example uniform_weight_4 : uniform_weight 4 = S754_finite false 4503599627370496 (-54).
Proof. reflexivity. Qed.

Lemma keys_map_const {A B : Type} (f : string * A -> B) (d : dict A) :
  keys (map (fun kv => (fst kv, f kv)) d) = keys d.
Proof.
  unfold keys. rewrite map_map. simpl. reflexivity.
Qed.

Lemma dict_get_map_const {A B : Type} (u : B) (k : string) (d : dict A) (w : A) :
  dict_get k d = Returned w ->
  dict_get k (map (fun kv => (fst kv, u)) d) = Returned u.
Proof.
  induction d as [|[k' w'] d IH]; simpl; [discriminate|].
  destruct (String.eqb k k'); [reflexivity|assumption].
Qed.

(** C8: when the weights of a non-empty priority map sum to exactly zero
    (the computed sum compares equal to 0), [normalize_weights] keeps the
    subjects in their order and gives each of the [n] subjects the weight
    [1.0 / n]. *)
Theorem normalize_weights_uniform :
  forall (np_sum : list PyFloat.float -> PyFloat.float)
         (priorities : dict PyFloat.float),
    priorities <> [] ->
    PyFloat.eq_zero (np_sum (values priorities)) = true ->
    keys (normalize_weights np_sum priorities) = keys priorities /\
    (forall k w, dict_get k priorities = Returned w ->
                 dict_get k (normalize_weights np_sum priorities) =
                 Returned (uniform_weight (List.length priorities))) /\
    Forall (fun w => w = uniform_weight (List.length priorities))
           (values (normalize_weights np_sum priorities)).
Proof.
  intros np_sum priorities _ Hz. unfold normalize_weights. rewrite Hz.
  fold (uniform_weight (List.length priorities)).
  generalize (uniform_weight (List.length priorities)) as u. intros u.
  split; [|split].
  - apply (keys_map_const (fun _ => u)).
  - intros k w. apply dict_get_map_const.
  - unfold values. rewrite map_map. simpl.
    apply Forall_forall. intros w Hin. apply in_map_iff in Hin.
    destruct Hin as (kv & <- & _). reflexivity.
Qed.

Lemma normalize_weights_uniform_witness :
  keys (normalize_weights array_sum zero_priorities) = keys zero_priorities /\
  (forall k w, dict_get k zero_priorities = Returned w ->
               dict_get k (normalize_weights array_sum zero_priorities) =
               Returned (uniform_weight 2)) /\
  Forall (fun w => w = uniform_weight 2)
         (values (normalize_weights array_sum zero_priorities)).
Proof.
  apply (normalize_weights_uniform array_sum zero_priorities);
    [discriminate | reflexivity].
Defined.

(** An all-zero array sums to zero in array order, so an all-zero priority
    map takes the uniform branch. *)
Lemma array_sum_zeros (l : list PyFloat.float) :
  Forall (fun x => exists s, x = S754_zero s) l ->
  PyFloat.eq_zero (array_sum l) = true.
Proof.
  unfold array_sum. generalize false as s0.
  induction l as [|x l IH]; intros s0 H; simpl; [reflexivity|].
  inversion H as [|? ? [s ->] Hl]; subst.
  destruct s0, s; simpl; apply IH; assumption.
Qed.

(** C9: [load_memory] returns [{"last_plan": []}], and raises nothing,
    when the memory file is absent, when reading it fails, and when its
    text is rejected by the JSON parser. *)
Theorem load_memory_falls_back :
  forall (json_loads : string -> outcome json) (f : memory_file),
    (f = Absent \/
     (exists e, f = Present (Raised e)) \/
     (exists text e, f = Present (Returned text) /\
                     json_loads text = Raised e)) ->
    load_memory json_loads f = Returned empty_memory.
Proof.
  intros json_loads f [-> | [[e ->] | (text & e & -> & Hparse)]].
  - reflexivity.
  - reflexivity.
  - unfold load_memory. simpl. rewrite Hparse. reflexivity.
Qed.

Lemma load_memory_falls_back_witness :
  load_memory loads_null_only (Present (Returned "{last_plan: "%string)) =
  Returned empty_memory.
Proof.
  apply (load_memory_falls_back loads_null_only
           (Present (Returned "{last_plan: "%string))).
  right. right. exists "{last_plan: "%string, JSONDecodeError.
  split; reflexivity.
Defined.

(** ** The schedule assembler *)

Lemma foldM_invariant {A B : Type} (f : A -> B -> outcome A) (P : A -> Prop) :
  (forall a x a', P a -> f a x = Returned a' -> P a') ->
  forall l a r, P a -> foldM f l a = Returned r -> P r.
Proof.
  intros Hstep. induction l as [|x l IH]; simpl; intros a r Ha H.
  - injection H as <-. assumption.
  - bind_inv H. eapply IH; [|eassumption]. eapply Hstep; eassumption.
Qed.

Lemma datetime_add_returned (t d e : Z) :
  datetime_add t d = Returned e -> e = t + d.
Proof.
  unfold datetime_add.
  destruct ((0 <=? t + d) && (t + d <? datetime_minutes)); intros H;
    [injection H as <-; reflexivity|discriminate].
Qed.

Lemma datetime_add_ok (t d : Z) :
  0 <= t + d < datetime_minutes -> datetime_add t d = Returned (t + d).
Proof.
  intros [Hlo Hhi]. unfold datetime_add.
  apply Z.leb_le in Hlo. apply Z.ltb_lt in Hhi. rewrite Hlo, Hhi. reflexivity.
Qed.

(** The three ways a turn of the inner loop can go. *)
Lemma emit_cases subj lbe lbl st s st' :
  emit subj lbe lbl st s = Returned st' ->
  (snd s = break /\
   rows st' = rows st ++ emitted subj lbl (cur st) s false /\
   cur st' = cur st + fst s /\
   study_block_counter st' = study_block_counter st) \/
  (snd s = study /\ lbe <> 0 /\ (study_block_counter st + 1) mod lbe <> 0 /\
   rows st' = rows st ++ emitted subj lbl (cur st) s false /\
   cur st' = cur st + fst s /\
   study_block_counter st' = study_block_counter st + 1) \/
  (snd s = study /\ lbe <> 0 /\ (study_block_counter st + 1) mod lbe = 0 /\
   rows st' = rows st ++ emitted subj lbl (cur st) s true /\
   cur st' = cur st + fst s + lbl /\
   study_block_counter st' = study_block_counter st + 1).
Proof.
  destruct s as [dur knd]. unfold emit. intros H.
  bind_inv H. rename a into e.
  apply datetime_add_returned in Hret. subst e.
  destruct knd; simpl in H.
  - bind_inv H. rename a into m. unfold py_mod in Hret.
    destruct (lbe =? 0) eqn:Hz; [discriminate|].
    apply Z.eqb_neq in Hz. injection Hret as <-.
    destruct ((study_block_counter st + 1) mod lbe =? 0) eqn:Hm.
    + apply Z.eqb_eq in Hm. bind_inv H. rename a into l_end.
      apply datetime_add_returned in Hret. subst l_end.
      injection H as <-. right. right. simpl.
      rewrite <- app_assoc. simpl. auto 10.
    + apply Z.eqb_neq in Hm. injection H as <-.
      right. left. simpl. auto 10.
  - injection H as <-. left. simpl. auto.
Qed.

Lemma schedule_blocks_invariant (P : sched_state -> Prop)
      fuel per_subject subjects start_time focus_len short_break lbe lbl st :
  (forall subj st0 s st1,
      P st0 -> emit subj lbe lbl st0 s = Returned st1 -> P st1) ->
  P (mkSched [] start_time 0) ->
  schedule_blocks fuel per_subject subjects start_time
                  focus_len short_break lbe lbl = Returned st ->
  P st.
Proof.
  intros Hemit H0 H. unfold schedule_blocks in H.
  eapply foldM_invariant; [|exact H0|exact H].
  intros st0 subj st1 Hst0 Hsubj. unfold schedule_subject in Hsubj.
  bind_inv Hsubj. bind_inv Hsubj.
  eapply foldM_invariant; [|exact Hst0|exact Hsubj].
  intros stA s stB. apply Hemit.
Qed.

Lemma build_schedule_returned np_sum now fuel subjects priorities total_minutes
      start_time focus_len short_break lbe lbl rs :
  build_schedule np_sum now fuel subjects priorities total_minutes start_time
                 focus_len short_break lbe lbl = Returned rs ->
  exists per_subject st,
    distribute_time fuel total_minutes (normalize_weights np_sum priorities)
                    (Z.min 25 total_minutes) = Returned per_subject /\
    schedule_blocks fuel per_subject subjects (effective_start now start_time)
                    focus_len short_break lbe lbl = Returned st /\
    rows st = rs.
Proof.
  unfold build_schedule. intros H. bind_inv H. bind_inv H.
  injection H as <-. eauto.
Qed.

(** *** Contiguity *)

Lemma row_minutes_app (l1 l2 : list row) :
  row_minutes (l1 ++ l2) = row_minutes l1 + row_minutes l2.
Proof. unfold row_minutes. rewrite map_app. apply zsum_app. Qed.

Lemma timeline_app (l1 l2 : list row) : forall t,
  timeline t l1 -> timeline (t + row_minutes l1) l2 -> timeline t (l1 ++ l2).
Proof.
  induction l1 as [|r l1 IH]; simpl; intros t H1 H2.
  - unfold row_minutes in H2. simpl in H2. rewrite Z.add_0_r in H2. assumption.
  - destruct H1 as (Hs & He & Hrest). repeat split; try assumption.
    apply IH; [assumption|].
    unfold row_minutes in *. simpl in H2.
    rewrite Z.add_assoc in H2. assumption.
Qed.

Lemma timeline_emitted subj lbl t s long :
  timeline t (emitted subj lbl t s long).
Proof.
  destruct s as [dur knd]. destruct long; simpl; auto.
Qed.

Lemma row_minutes_emitted subj lbl t s long :
  row_minutes (emitted subj lbl t s long) =
  fst s + (if long then lbl else 0).
Proof.
  destruct s as [dur knd]. destruct long; unfold row_minutes; simpl; lia.
Qed.

Lemma timeline_contiguous (rs : list row) : forall t,
  timeline t rs -> contiguous (strftime_HM t) rs.
Proof.
  induction rs as [|r rs IH]; intros t H.
  - split; [intros r H0|intros [|j] r r' H0]; discriminate.
  - simpl in H. destruct H as (Hs & He & Hrest).
    destruct (IH _ Hrest) as [Hfirst Hnext]. split.
    + intros r0 H0. injection H0 as <-. assumption.
    + intros [|j] r0 r1 H0 H1; simpl in H0, H1.
      * injection H0 as <-. rewrite He. apply Hfirst. assumption.
      * eapply Hnext; eassumption.
Qed.

(** The table is a walk of the clock from the start time, and the cursor
    stands at the start time plus every minute in the table, long breaks
    included. *)
Lemma schedule_blocks_timeline
      fuel per_subject subjects start_time focus_len short_break lbe lbl st :
  schedule_blocks fuel per_subject subjects start_time
                  focus_len short_break lbe lbl = Returned st ->
  timeline start_time (rows st) /\
  cur st = start_time + row_minutes (rows st).
Proof.
  apply (schedule_blocks_invariant
           (fun st => timeline start_time (rows st) /\
                      cur st = start_time + row_minutes (rows st))).
  - intros subj st0 s st1 [Ht Hc] He.
    assert (Hgen : forall long,
               timeline start_time (rows st0 ++ emitted subj lbl (cur st0) s long) /\
               cur st0 + fst s + (if long then lbl else 0) =
               start_time + row_minutes (rows st0 ++ emitted subj lbl (cur st0) s long)).
    { intros long. split.
      - apply timeline_app; [assumption|]. rewrite <- Hc. apply timeline_emitted.
      - rewrite row_minutes_app, row_minutes_emitted. lia. }
    apply emit_cases in He.
    destruct He as [(_ & -> & -> & _) | [(_ & _ & _ & -> & -> & _)
                                        | (_ & _ & _ & -> & -> & _)]].
    + destruct (Hgen false) as [H1 H2]. split; [assumption|lia].
    + destruct (Hgen false) as [H1 H2]. split; [assumption|lia].
    + destruct (Hgen true) as [H1 H2]. split; [assumption|lia].
  - simpl. split; [exact I|]. unfold row_minutes. simpl. lia.
Qed.

(** C6: in every table [build_schedule] returns, the first row starts at
    the [start_time] argument when one is given (at the clock reading
    only when none is given), and every later row starts at the end of the
    row before it. *)
Theorem build_schedule_contiguous :
  forall (np_sum : list PyFloat.float -> PyFloat.float) (now : Z) (fuel : nat)
         (subjects : list string) (priorities : dict PyFloat.float)
         (total_minutes : Z) (start_time : option Z)
         (focus_len short_break long_break_every long_break_len : Z)
         (rs : list row),
    build_schedule np_sum now fuel subjects priorities total_minutes start_time
                   focus_len short_break long_break_every long_break_len
    = Returned rs ->
    (forall t, start_time = Some t -> contiguous (strftime_HM t) rs) /\
    (start_time = None -> contiguous (strftime_HM now) rs).
Proof.
  intros np_sum now fuel subjects priorities total_minutes start_time
         focus_len short_break lbe lbl rs H.
  apply build_schedule_returned in H.
  destruct H as (per_subject & st & _ & Hst & <-).
  pose proof (schedule_blocks_timeline _ _ _ _ _ _ _ _ _ Hst) as [Ht _].
  split.
  - intros t ->. apply timeline_contiguous. exact Ht.
  - intros ->. apply timeline_contiguous. exact Ht.
Qed.

(** *** The long-break cadence *)

Lemma count_study_app (l1 l2 : list row) :
  count_study (l1 ++ l2) = count_study l1 + count_study l2.
Proof.
  unfold count_study. rewrite filter_app, length_app. lia.
Qed.

Lemma cadence_app lbe lbl c0 (l1 l2 : list row) :
  cadence lbe lbl c0 l1 ->
  cadence lbe lbl (c0 + count_study l1) l2 ->
  cadence lbe lbl c0 (l1 ++ l2).
Proof.
  intros H1 H2 j r Hj Hr Hm.
  destruct (Nat.lt_ge_cases j (List.length l1)) as [Hlt|Hge].
  - rewrite nth_error_app1 in Hj by assumption.
    rewrite firstn_app in Hm.
    replace (S j - List.length l1)%nat with 0%nat in Hm by lia.
    rewrite firstn_O, app_nil_r in Hm.
    destruct (H1 j r Hj Hr Hm) as (lb & Hlb & Hty & Hdur).
    exists lb. split; [|auto].
    rewrite nth_error_app1; [assumption|].
    apply nth_error_Some. congruence.
  - rewrite nth_error_app2 in Hj by assumption.
    rewrite firstn_app, count_study_app in Hm.
    rewrite firstn_all2 in Hm by lia.
    replace (S j - List.length l1)%nat with (S (j - List.length l1)) in Hm by lia.
    rewrite Z.add_assoc in Hm.
    destruct (H2 _ r Hj Hr Hm) as (lb & Hlb & Hty & Hdur).
    exists lb. split; [|auto].
    rewrite nth_error_app2 by lia.
    replace (S j - List.length l1)%nat with (S (j - List.length l1)) by lia.
    assumption.
Qed.

Lemma cadence_emitted_break subj lbe lbl c0 t dur :
  cadence lbe lbl c0 (emitted subj lbl t (dur, break) false).
Proof.
  intros [|[|j]] r Hj Hr Hm; simpl in Hj; try discriminate.
  injection Hj as <-. discriminate Hr.
Qed.

Lemma cadence_emitted_study subj lbe lbl c0 t dur :
  (c0 + 1) mod lbe <> 0 ->
  cadence lbe lbl c0 (emitted subj lbl t (dur, study) false).
Proof.
  intros Hne [|[|j]] r Hj Hr Hm; simpl in Hj; try discriminate.
  exfalso. apply Hne. exact Hm.
Qed.

Lemma cadence_emitted_long subj lbe lbl c0 t dur :
  cadence lbe lbl c0 (emitted subj lbl t (dur, study) true).
Proof.
  intros [|[|[|j]]] r Hj Hr Hm; simpl in Hj; try discriminate.
  - eexists. split; [reflexivity|]. split; reflexivity.
  - injection Hj as <-. discriminate Hr.
Qed.

Lemma count_study_emitted subj lbl t dur knd long :
  count_study (emitted subj lbl t (dur, knd) long) =
  if kind_eqb knd study then 1 else 0.
Proof. destruct knd, long; reflexivity. Qed.

(** The counter counts the study rows of the table and nothing else, and
    the table keeps the cadence. *)
Lemma schedule_blocks_cadence
      fuel per_subject subjects start_time focus_len short_break lbe lbl st :
  schedule_blocks fuel per_subject subjects start_time
                  focus_len short_break lbe lbl = Returned st ->
  study_block_counter st = count_study (rows st) /\
  cadence lbe lbl 0 (rows st).
Proof.
  apply (schedule_blocks_invariant
           (fun st => study_block_counter st = count_study (rows st) /\
                      cadence lbe lbl 0 (rows st))).
  - intros subj st0 [dur knd] st1 [Hc Hcad] He.
    apply emit_cases in He. cbn [fst snd] in He.
    destruct He as [(-> & -> & _ & ->) | [(-> & _ & Hm & -> & _ & ->)
                                         | (-> & _ & Hm & -> & _ & ->)]];
      rewrite count_study_app, count_study_emitted; cbn [kind_eqb];
      (split; [lia|]); apply cadence_app; try assumption.
    + apply cadence_emitted_break.
    + apply cadence_emitted_study. rewrite Z.add_0_l, <- Hc. assumption.
    + apply cadence_emitted_long.
  - split; [reflexivity|]. intros [|j] r Hj; discriminate.
Qed.

(** A break never moves the counter. *)
Lemma emit_break_keeps_counter subj lbe lbl st dur st' :
  emit subj lbe lbl st (dur, break) = Returned st' ->
  study_block_counter st' = study_block_counter st.
Proof.
  intros H. apply emit_cases in H. cbn [fst snd] in H.
  destruct H as [(_ & _ & _ & H) | [(H & _) | (H & _)]];
    [assumption|discriminate|discriminate].
Qed.

(** C7: in every table [build_schedule] returns, counting study rows with
    one running count over all subjects, a study row whose count is a
    positive multiple of [long_break_every] is followed at once by a break
    row of [long_break_len] minutes; and the loops end with their counter
    equal to the number of study rows, so no break row, short or long,
    was ever counted. *)
Theorem build_schedule_long_break_cadence :
  forall (np_sum : list PyFloat.float -> PyFloat.float) (now : Z) (fuel : nat)
         (subjects : list string) (priorities : dict PyFloat.float)
         (total_minutes : Z) (start_time : option Z)
         (focus_len short_break long_break_every long_break_len : Z)
         (rs : list row),
    build_schedule np_sum now fuel subjects priorities total_minutes start_time
                   focus_len short_break long_break_every long_break_len
    = Returned rs ->
    (forall (j : nat) (r : row) (k : Z),
        nth_error rs j = Some r -> type r = study ->
        0 < k -> count_study (firstn (S j) rs) = k * long_break_every ->
        exists lb, nth_error rs (S j) = Some lb /\
                   type lb = break /\ duration_min lb = long_break_len) /\
    (exists per_subject st,
        schedule_blocks fuel per_subject subjects
                        (effective_start now start_time) focus_len short_break
                        long_break_every long_break_len = Returned st /\
        rows st = rs /\
        study_block_counter st = count_study rs).
Proof.
  intros np_sum now fuel subjects priorities total_minutes start_time
         focus_len short_break lbe lbl rs H.
  apply build_schedule_returned in H.
  destruct H as (per_subject & st & _ & Hst & <-).
  destruct (schedule_blocks_cadence _ _ _ _ _ _ _ _ _ Hst) as [Hc Hcad].
  split.
  - intros j r k Hj Hty Hk Hcount.
    apply (Hcad j r Hj).
    + unfold is_study. rewrite Hty. reflexivity.
    + rewrite Z.add_0_l, Hcount. apply Z.mod_mul.
      intros ->. rewrite Z.mul_0_r in Hcount.
      assert (Hin : In r (filter is_study (firstn (S j) (rows st)))).
      { apply filter_In. split.
        - apply nth_error_In with (n := j).
          rewrite nth_error_firstn.
          destruct (Nat.ltb_spec j (S j)); [assumption|lia].
        - unfold is_study. rewrite Hty. reflexivity. }
      unfold count_study in Hcount.
      destruct (filter is_study (firstn (S j) (rows st)));
        [destruct Hin|simpl in Hcount; lia].
  - exists per_subject, st. auto.
Qed.

(** *** More fuel changes nothing *)

Lemma foldM_impl {A B : Type} (f g : A -> B -> outcome A) :
  (forall a x a', f a x = Returned a' -> g a x = Returned a') ->
  forall l a r, foldM f l a = Returned r -> foldM g l a = Returned r.
Proof.
  intros Hfg. induction l as [|x l IH]; simpl; intros a r H; [assumption|].
  bind_inv H. rewrite (Hfg _ _ _ Hret). simpl. apply IH. assumption.
Qed.

Lemma schedule_blocks_mono fuel fuel' per_subject subjects start_time
      focus_len short_break lbe lbl st :
  (fuel <= fuel')%nat ->
  schedule_blocks fuel per_subject subjects start_time
                  focus_len short_break lbe lbl = Returned st ->
  schedule_blocks fuel' per_subject subjects start_time
                  focus_len short_break lbe lbl = Returned st.
Proof.
  intros Hle. unfold schedule_blocks. apply foldM_impl.
  intros st0 subj st1 H. unfold schedule_subject in *.
  bind_inv H. rewrite Hret. simpl. bind_inv H.
  rewrite (split_into_sessions_mono _ _ _ _ _ _ Hle Hret0). assumption.
Qed.

Lemma build_schedule_mono np_sum now fuel fuel' subjects priorities total_minutes
      start_time focus_len short_break lbe lbl rs :
  (fuel <= fuel')%nat ->
  build_schedule np_sum now fuel subjects priorities total_minutes start_time
                 focus_len short_break lbe lbl = Returned rs ->
  build_schedule np_sum now fuel' subjects priorities total_minutes start_time
                 focus_len short_break lbe lbl = Returned rs.
Proof.
  intros Hle H. apply build_schedule_returned in H.
  destruct H as (per_subject & st & Hd & Hs & <-).
  unfold build_schedule.
  rewrite (distribute_time_mono _ _ _ _ _ _ Hle Hd). simpl.
  rewrite (schedule_blocks_mono _ _ _ _ _ _ _ _ _ _ Hle Hs). reflexivity.
Qed.

(** *** The example plan *)

Lemma example_weights np_sum :
  np_sum [PyFloat.of_Z 3; PyFloat.of_Z 2; PyFloat.of_Z 4] = PyFloat.of_Z 9 ->
  normalize_weights np_sum example_priorities =
  [("Math", PyFloat.div (PyFloat.of_Z 3) (PyFloat.of_Z 9));
   ("Python", PyFloat.div (PyFloat.of_Z 2) (PyFloat.of_Z 9));
   ("AI", PyFloat.div (PyFloat.of_Z 4) (PyFloat.of_Z 9))]%string.
Proof.
  intros H. unfold normalize_weights.
  change (values example_priorities)
    with [PyFloat.of_Z 3; PyFloat.of_Z 2; PyFloat.of_Z 4].
  rewrite H. reflexivity.
Qed.

Lemma example_allocation :
  distribute_time 0 180
    [("Math", PyFloat.div (PyFloat.of_Z 3) (PyFloat.of_Z 9));
     ("Python", PyFloat.div (PyFloat.of_Z 2) (PyFloat.of_Z 9));
     ("AI", PyFloat.div (PyFloat.of_Z 4) (PyFloat.of_Z 9))]%string 25 =
  Returned [("Math", 60); ("Python", 40); ("AI", 80)]%string.
Proof. vm_compute. reflexivity. Qed.

Lemma example_blocks (t : Z) :
  0 <= t -> t + 200 < datetime_minutes ->
  schedule_blocks 2 [("Math", 60); ("Python", 40); ("AI", 80)]%string
                  example_subjects t 45 10 3 20 =
  Returned (mkSched (example_rows t) (t + 200) 5).
Proof.
  intros Hlo Hhi.
  unfold schedule_blocks, example_subjects, schedule_subject.
  cbn -[datetime_add strftime_HM datetime_minutes].
  repeat (rewrite datetime_add_ok by lia;
          cbn -[datetime_add strftime_HM datetime_minutes]).
  rewrite <- !Z.add_assoc.
  cbn -[datetime_add strftime_HM datetime_minutes].
  reflexivity.
Qed.

(** C1 (as the code behaves): for the example subjects and priorities, 180
    minutes and default parameters, [build_schedule] returns study 45,
    break 10, study 5, study 40, break 20, study 45, break 10, study 25.
    The study rows sum to 160; with the two short breaks they sum to 180;
    the long break of 20 after the third study row brings the table to
    200.  The array sum 3 + 2 + 4 is exact, whatever the order. *)
Theorem example_plan_minutes :
  forall (np_sum : list PyFloat.float -> PyFloat.float) (now : Z) (fuel : nat),
    np_sum [PyFloat.of_Z 3; PyFloat.of_Z 2; PyFloat.of_Z 4] = PyFloat.of_Z 9 ->
    (2 <= fuel)%nat ->
    0 <= now -> now + 200 < datetime_minutes ->
    build_schedule np_sum now fuel example_subjects example_priorities 180
                   None 45 10 3 20 = Returned (example_rows now) /\
    map (fun r => (duration_min r, type r)) (example_rows now) =
    [(45, study); (10, break); (5, study); (40, study); (20, break);
     (45, study); (10, break); (25, study)] /\
    study_minutes (example_rows now) = 160 /\
    break_minutes (example_rows now) = 10 + 10 + 20 /\
    row_minutes (example_rows now) - 20 = 180.
Proof.
  intros np_sum now fuel Hsum Hfuel Hlo Hhi.
  split; [|repeat split].
  apply (build_schedule_mono np_sum now 2 fuel); [assumption|].
  unfold build_schedule.
  rewrite (example_weights np_sum Hsum).
  change (Z.min 25 180) with 25.
  rewrite (distribute_time_mono 0 2 _ _ _ _ (Nat.le_0_l 2) example_allocation).
  cbn [bind effective_start].
  rewrite (example_blocks now Hlo Hhi). reflexivity.
Qed.

Lemma example_plan_minutes_witness :
  build_schedule array_sum nine_o_clock 2 example_subjects example_priorities
                 180 None 45 10 3 20 = Returned (example_rows nine_o_clock) /\
  map (fun r => (duration_min r, type r)) (example_rows nine_o_clock) =
  [(45, study); (10, break); (5, study); (40, study); (20, break);
   (45, study); (10, break); (25, study)] /\
  study_minutes (example_rows nine_o_clock) = 160 /\
  break_minutes (example_rows nine_o_clock) = 10 + 10 + 20 /\
  row_minutes (example_rows nine_o_clock) - 20 = 180.
Proof.
  apply (example_plan_minutes array_sum nine_o_clock 2).
  - reflexivity.
  - apply Nat.le_refl.
  - unfold nine_o_clock. lia.
  - unfold nine_o_clock, datetime_minutes. lia.
Defined.

(** C1 as stated fails: with the clock at 09:00 and the array summed in
    order, the call returns a table whose study rows sum to 160. *)
Lemma example_plan_study_minutes_not_180 :
  exists rs,
    build_schedule array_sum nine_o_clock 2 example_subjects example_priorities
                   180 None 45 10 3 20 = Returned rs /\
    study_minutes rs = 160 /\
    study_minutes rs <> 180.
Proof.
  exists (example_rows nine_o_clock).
  split; [vm_compute; reflexivity|].
  split; [reflexivity|]. intros H. discriminate H.
Qed.

Lemma build_schedule_contiguous_witness :
  contiguous "09:00" (example_rows nine_o_clock).
Proof.
  refine (proj1 (build_schedule_contiguous array_sum 0 2 example_subjects
                   example_priorities 180 (Some nine_o_clock) 45 10 3 20
                   (example_rows nine_o_clock) _) nine_o_clock eq_refl).
  vm_compute. reflexivity.
Defined.

Lemma build_schedule_long_break_cadence_witness :
  (forall (j : nat) (r : row) (k : Z),
      nth_error (example_rows nine_o_clock) j = Some r -> type r = study ->
      0 < k ->
      count_study (firstn (S j) (example_rows nine_o_clock)) = k * 3 ->
      exists lb, nth_error (example_rows nine_o_clock) (S j) = Some lb /\
                 type lb = break /\ duration_min lb = 20) /\
  (exists per_subject st,
      schedule_blocks 2 per_subject example_subjects
                      (effective_start 0 (Some nine_o_clock)) 45 10 3 20
      = Returned st /\
      rows st = example_rows nine_o_clock /\
      study_block_counter st = count_study (example_rows nine_o_clock)).
Proof.
  apply (build_schedule_long_break_cadence array_sum 0 2 example_subjects
           example_priorities 180 (Some nine_o_clock) 45 10 3 20
           (example_rows nine_o_clock)).
  vm_compute. reflexivity.
Defined.

(** * Further properties *)

(** ** More on the session splitter *)

Lemma alternates_app (l1 l2 : list session) : forall k,
  alternates k l1 -> alternates (kind_after k (List.length l1)) l2 ->
  alternates k (l1 ++ l2).
Proof.
  induction l1 as [|b l1 IH]; intros k H1 H2.
  - exact H2.
  - destruct H1 as [Hb H1]. split; [assumption|].
    apply IH; [assumption|].
    unfold kind_after in *. cbn [List.length] in H2.
    rewrite Nat.even_succ, <- Nat.negb_even in H2.
    destruct (Nat.even (List.length l1)), k; exact H2.
Qed.

Lemma alternates_snoc (l : list session) (b : session) (k : kind) :
  alternates k l -> snd b = kind_after k (List.length l) ->
  alternates k (l ++ [b]).
Proof.
  intros Hl Hb. apply alternates_app; [assumption|]. split; [assumption|exact I].
Qed.

Lemma split_body_shape minutes focus_len short_break s s' :
  split_shape minutes s -> split_cond s = true ->
  split_body focus_len short_break s = Returned s' -> split_shape minutes s'.
Proof.
  unfold split_shape, split_cond, split_body.
  intros (Halt & Heven & Hempty) Hc Hb. apply Z.ltb_lt in Hc.
  specialize (Heven Hc).
  assert (Hstudy : forall d, alternates study (plan s ++ [(d, study)])).
  { intros d. apply alternates_snoc; [assumption|].
    unfold kind_after. rewrite Heven. reflexivity. }
  destruct (remaining s <=? focus_len) eqn:Hle.
  - injection Hb as <-. simpl. repeat split.
    + apply Hstudy.
    + lia.
    + intros H. destruct (plan s); discriminate H.
  - destruct (0 <? remaining s - focus_len) eqn:Hrem;
      injection Hb as <-; simpl.
    + repeat split.
      * apply alternates_snoc; [apply Hstudy|].
        unfold kind_after. rewrite length_app, Nat.add_comm.
        cbn [List.length Nat.add].
        rewrite Nat.even_succ, <- Nat.negb_even, Heven. reflexivity.
      * intros _. rewrite !length_app, <- Nat.add_assoc.
        cbn [List.length Nat.add].
        rewrite Nat.even_add, Heven. reflexivity.
      * intros H. destruct (plan s); discriminate H.
    + repeat split.
      * apply Hstudy.
      * intros H. apply Z.ltb_ge in Hrem. lia.
      * intros H. destruct (plan s); discriminate H.
Qed.

Lemma split_loop_shape fuel minutes focus_len short_break s :
  while split_cond (split_body focus_len short_break) fuel (mkSplit [] minutes)
  = Returned s ->
  split_shape minutes s /\ remaining s <= 0.
Proof.
  intros H.
  apply (while_invariant split_cond (split_body focus_len short_break)
           (split_shape minutes)
           (split_body_shape minutes focus_len short_break)) in H.
  - destruct H as [Hs Hc]. split; [assumption|].
    unfold split_cond in Hc. apply Z.ltb_ge in Hc. assumption.
  - unfold split_shape. simpl. repeat split; intros; reflexivity.
Qed.

(** A plan that is not empty opens with a study block. *)
Lemma split_into_sessions_head fuel minutes focus_len short_break l :
  split_into_sessions fuel minutes focus_len short_break = Returned l ->
  l = [] \/ exists d rest, l = (d, study) :: rest.
Proof.
  unfold split_into_sessions. intros H. bind_inv H. injection H as <-.
  apply split_loop_shape in Hret. destruct Hret as [(Halt & _) _].
  destruct (plan a) as [|[d k] rest]; [auto|].
  destruct Halt as [Hk _]. simpl in Hk. subst k. eauto.
Qed.

(** X1: a returned plan alternates study and break blocks, beginning with a
    study block, and it is empty exactly when the minutes asked for are not
    above zero. *)
Theorem split_into_sessions_shape :
  forall (fuel : nat) (minutes focus_len short_break : Z) (l : list session),
    split_into_sessions fuel minutes focus_len short_break = Returned l ->
    alternates study l /\ (l = [] <-> minutes <= 0).
Proof.
  intros fuel minutes focus_len short_break l H.
  assert (Hnonpos : minutes <= 0 -> l = []).
  { intros Hm.
    rewrite (split_into_sessions_empty fuel minutes focus_len short_break Hm)
      in H.
    injection H as <-. reflexivity. }
  unfold split_into_sessions in H. bind_inv H. injection H as <-.
  apply split_loop_shape in Hret.
  destruct Hret as [(Halt & _ & Hempty) Hc].
  split; [assumption|]. split; [|assumption].
  intros H. rewrite <- (Hempty H). assumption.
Qed.

Lemma split_into_sessions_shape_witness :
  alternates study [(50, study); (10, break); (50, study); (10, break)] /\
  ([(50, study); (10, break); (50, study); (10, break)] = [] <-> 120 <= 0).
Proof.
  apply (split_into_sessions_shape 2 120 50 10). reflexivity.
Defined.

Lemma split_body_within focus_len short_break s s' :
  0 < focus_len -> 0 < short_break ->
  Forall (block_within focus_len short_break) (plan s) ->
  split_cond s = true ->
  split_body focus_len short_break s = Returned s' ->
  Forall (block_within focus_len short_break) (plan s').
Proof.
  unfold split_cond, split_body. intros Hf Hsb Hall Hc Hb.
  apply Z.ltb_lt in Hc.
  destruct (remaining s <=? focus_len) eqn:Hle.
  - apply Z.leb_le in Hle. injection Hb as <-. simpl.
    apply Forall_app. split; [assumption|].
    constructor; [|constructor]. unfold block_within. simpl. lia.
  - apply Z.leb_gt in Hle.
    assert (Hstudy : Forall (block_within focus_len short_break)
                       (plan s ++ [(focus_len, study)])).
    { apply Forall_app. split; [assumption|].
      constructor; [|constructor]. unfold block_within. simpl. lia. }
    destruct (0 <? remaining s - focus_len) eqn:Hrem;
      injection Hb as <-; simpl; [|assumption].
    apply Z.ltb_lt in Hrem.
    apply Forall_app. split; [assumption|].
    constructor; [|constructor]. unfold block_within. simpl. lia.
Qed.

Lemma split_loop_within fuel minutes focus_len short_break s :
  0 < focus_len -> 0 < short_break ->
  while split_cond (split_body focus_len short_break) fuel (mkSplit [] minutes)
  = Returned s ->
  Forall (block_within focus_len short_break) (plan s).
Proof.
  intros Hf Hsb H.
  apply (while_invariant split_cond (split_body focus_len short_break)
           (fun s => Forall (block_within focus_len short_break) (plan s))
           (fun s s' => split_body_within focus_len short_break s s' Hf Hsb))
    in H; [apply H|constructor].
Qed.

(** X2: with a positive focus length and a positive short break, every
    study block of a returned plan lasts between 1 and [focus_len] minutes
    and every break between 1 and [short_break] minutes. *)
Theorem split_into_sessions_blocks_within :
  forall (fuel : nat) (minutes focus_len short_break : Z) (l : list session),
    0 < focus_len -> 0 < short_break ->
    split_into_sessions fuel minutes focus_len short_break = Returned l ->
    Forall (block_within focus_len short_break) l.
Proof.
  intros fuel minutes focus_len short_break l Hf Hsb H.
  unfold split_into_sessions in H. bind_inv H. injection H as <-.
  eapply split_loop_within; eassumption.
Qed.

Lemma split_into_sessions_blocks_within_witness :
  Forall (block_within 50 10)
         [(50, study); (10, break); (50, study); (10, break)].
Proof.
  apply (split_into_sessions_blocks_within 2 120 50 10); [lia|lia|reflexivity].
Defined.

(** X3: with minutes to place, a focus length that is not positive and a
    short break that is not positive, the loop never ends: each turn leaves
    at least as many minutes as it found. *)
Theorem split_into_sessions_runs_forever :
  forall (fuel : nat) (minutes focus_len short_break : Z),
    0 < minutes -> focus_len <= 0 -> short_break <= 0 ->
    split_into_sessions fuel minutes focus_len short_break = OutOfFuel.
Proof.
  intros fuel minutes focus_len short_break Hm Hf Hsb.
  unfold split_into_sessions.
  rewrite (while_diverges split_cond (split_body focus_len short_break)
             (fun s => 0 < remaining s)); [reflexivity| |exact Hm].
  intros s Hs. unfold split_cond, split_body.
  split; [apply Z.ltb_lt; assumption|].
  destruct (remaining s <=? focus_len) eqn:Hle; [apply Z.leb_le in Hle; lia|].
  destruct (0 <? remaining s - focus_len) eqn:Hrem;
    [|apply Z.ltb_ge in Hrem; lia].
  eexists. split; [reflexivity|]. simpl. lia.
Qed.

Lemma split_into_sessions_runs_forever_witness :
  split_into_sessions 1000 60 0 0 = OutOfFuel.
Proof.
  apply (split_into_sessions_runs_forever 1000 60 0 0); lia.
Defined.


(** ** More on floats and the weight normalizer *)

Lemma div_nonneg (x y : PyFloat.float) :
  PyFloat.nonneg x = true -> sign_clear y ->
  PyFloat.nonneg (PyFloat.div x y) = true.
Proof.
  intros Hx Hy. unfold PyFloat.div, SFdiv.
  destruct x as [sx|sx| |sx mx ex]; destruct y as [sy|sy| |sy my ey];
    simpl in *; try subst sy; try reflexivity;
    try (destruct sx; [discriminate Hx|reflexivity]).
  destruct sx; [discriminate Hx|].
  destruct (SFdiv_core_binary PyFloat.prec PyFloat.emax (Z.pos mx) ex (Z.pos my) ey)
    as [[mz ez] lz].
  pose proof (PyFloatFacts.binary_round_aux_sign (xorb false false) mz ez lz) as H.
  destruct (binary_round_aux PyFloat.prec PyFloat.emax (xorb false false) mz ez lz)
    as [s|s| |s m e]; simpl in *; try reflexivity; subst s; reflexivity.
Qed.

Lemma nonneg_nonzero_sign_clear (y : PyFloat.float) :
  PyFloat.nonneg y = true -> PyFloat.eq_zero y = false -> sign_clear y.
Proof.
  destruct y as [s|s| |s m e]; simpl; intros Hn Hz;
    try exact I; try discriminate Hz;
    destruct s; try discriminate Hn; reflexivity.
Qed.

Lemma uniform_weight_nonneg (n : nat) :
  PyFloat.nonneg (uniform_weight n) = true.
Proof.
  unfold uniform_weight. apply div_nonneg; [reflexivity|].
  destruct n as [|n]; [reflexivity|].
  apply PyFloatFacts.of_Z_sign_clear. lia.
Qed.

Lemma keys_combine_values {A B : Type} (f : A -> B) (d : dict A) :
  keys (combine (keys d) (map f (values d))) = keys d.
Proof.
  induction d as [|[k v] d IH]; simpl; [reflexivity|].
  f_equal. exact IH.
Qed.

Lemma values_combine_values {A B : Type} (f : A -> B) (d : dict A) :
  values (combine (keys d) (map f (values d))) = map f (values d).
Proof.
  induction d as [|[k v] d IH]; simpl; [reflexivity|].
  f_equal. exact IH.
Qed.

(** The normalizer keeps the subjects and their order, on both branches. *)
Lemma normalize_weights_keys np_sum (priorities : dict PyFloat.float) :
  keys (normalize_weights np_sum priorities) = keys priorities.
Proof.
  unfold normalize_weights.
  destruct (PyFloat.eq_zero (np_sum (values priorities))).
  - apply (keys_map_const (fun _ => _)).
  - apply keys_combine_values.
Qed.

Lemma normalize_weights_values_nonneg np_sum (priorities : dict PyFloat.float) :
  Forall (fun v => PyFloat.nonneg v = true) (values priorities) ->
  PyFloat.nonneg (np_sum (values priorities)) = true ->
  Forall (fun w => PyFloat.nonneg w = true)
         (values (normalize_weights np_sum priorities)).
Proof.
  intros Hp Hs. unfold normalize_weights.
  destruct (PyFloat.eq_zero (np_sum (values priorities))) eqn:Hz.
  - unfold values. rewrite map_map. simpl.
    apply Forall_forall. intros w Hin. apply in_map_iff in Hin.
    destruct Hin as (kv & <- & _).
    apply (uniform_weight_nonneg (List.length priorities)).
  - rewrite values_combine_values.
    apply Forall_forall. intros w Hin. apply in_map_iff in Hin.
    destruct Hin as (v & <- & Hv).
    apply div_nonneg.
    + apply (proj1 (Forall_forall _ _) Hp v Hv).
    + apply nonneg_nonzero_sign_clear; assumption.
Qed.

(** X4: when no priority is below zero and the computed sum is not below
    zero either, [normalize_weights] keeps the subjects in their order and
    gives no subject a weight below zero: its output meets what
    [distribute_time] needs to hand out only non-negative minutes. *)
Theorem normalize_weights_nonneg :
  forall (np_sum : list PyFloat.float -> PyFloat.float)
         (priorities : dict PyFloat.float),
    Forall (fun v => PyFloat.nonneg v = true) (values priorities) ->
    PyFloat.nonneg (np_sum (values priorities)) = true ->
    keys (normalize_weights np_sum priorities) = keys priorities /\
    Forall (fun w => PyFloat.nonneg w = true)
           (values (normalize_weights np_sum priorities)).
Proof.
  intros np_sum priorities Hp Hs.
  split; [apply normalize_weights_keys|].
  apply normalize_weights_values_nonneg; assumption.
Qed.

Lemma normalize_weights_nonneg_witness :
  keys (normalize_weights array_sum example_priorities) = keys example_priorities /\
  Forall (fun w => PyFloat.nonneg w = true)
         (values (normalize_weights array_sum example_priorities)).
Proof.
  apply (normalize_weights_nonneg array_sum example_priorities).
  - repeat constructor.
  - reflexivity.
Defined.

(** ** More on the time distributor *)

Lemma scaled_minutes_finite (total_minutes : Z) (w : PyFloat.float) (n : Z) :
  scaled_minutes total_minutes w = Returned n -> is_finite w = true.
Proof.
  unfold scaled_minutes, PyFloat.of_int. intros H. bind_inv H. rename a into t.
  destruct w as [sw|sw| |sw mw ew]; try reflexivity; exfalso.
  - destruct (PyFloat.of_Z total_minutes) as [st|st| |st mt et];
      try discriminate Hret; injection Hret as <-; discriminate H.
  - destruct t as [st|st| |st mt et]; discriminate H.
Qed.

Lemma mapM_returned_all {A B : Type} (f : A -> outcome B) (l : list A) (r : list B) :
  mapM f l = Returned r -> Forall (fun x => exists y, f x = Returned y) l.
Proof.
  revert r. induction l as [|x l IH]; simpl; intros r H; [constructor|].
  bind_inv H. bind_inv H. constructor; [eauto|]. eapply IH. eassumption.
Qed.

(** X5: [distribute_time] returns an allocation for a budget above zero
    only if every weight is a zero or a finite number: a NaN or an infinite
    weight makes [int()] raise. *)
Theorem distribute_time_needs_finite_weights :
  forall (fuel : nat) (total_minutes : Z) (weights : dict PyFloat.float)
         (min_block : Z) (alloc : dict Z),
    0 < total_minutes ->
    distribute_time fuel total_minutes weights min_block = Returned alloc ->
    Forall (fun w => is_finite w = true) (values weights).
Proof.
  intros fuel total_minutes weights min_block alloc Ht H.
  unfold distribute_time in H.
  destruct (total_minutes <=? 0) eqn:Hle; [apply Z.leb_le in Hle; lia|].
  bind_inv H. unfold initial_allocation in Hret. bind_inv Hret.
  apply mapM_returned_all in Hret0.
  unfold values. apply Forall_map.
  eapply Forall_impl; [|exact Hret0].
  intros [k w] [[k' n] Hn]. simpl in *. bind_inv Hn.
  eapply scaled_minutes_finite. eassumption.
Qed.

Lemma distribute_time_needs_finite_weights_witness :
  Forall (fun w => is_finite w = true) (values thirds).
Proof.
  apply (distribute_time_needs_finite_weights 1 100 thirds 25 thirds_alloc);
    [lia|vm_compute; reflexivity].
Defined.

(** A NaN weight in front makes the call raise [ValueError]. *)
Example distribute_time_nan :
  distribute_time 0 60 [("A", S754_nan)]%string 25 = Raised ValueError.
Proof. reflexivity. Qed.

Lemma dict_get_some {V : Type} (k : string) (d : dict V) :
  In k (keys d) -> exists v, dict_get k d = Returned v.
Proof.
  induction d as [|[k' v'] d IH]; simpl; [intros []|].
  destruct (String.eqb k k') eqn:E; [eauto|].
  intros [H|H]; [|auto].
  subst k'. rewrite String.eqb_refl in E. discriminate E.
Qed.

Lemma dict_get_key {V : Type} (k : string) (d : dict V) (v : V) :
  dict_get k d = Returned v -> In k (keys d).
Proof.
  induction d as [|[k' v'] d IH]; simpl; [discriminate|].
  destruct (String.eqb k k') eqn:E.
  - intros _. left. apply String.eqb_eq in E. auto.
  - intros H. right. auto.
Qed.

(** The round-robin pick always finds a key of a non-empty key list. *)
Lemma round_robin_pick (ks : list string) (i : Z) :
  ks <> [] ->
  exists m k, py_mod i (Z.of_nat (List.length ks)) = Returned m /\
              list_get ks m = Returned k /\ In k ks.
Proof.
  intros Hne. unfold py_mod.
  assert (Hlen : 0 < Z.of_nat (List.length ks))
    by (destruct ks; [congruence|simpl; lia]).
  destruct (Z.of_nat (List.length ks) =? 0) eqn:E;
    [apply Z.eqb_eq in E; lia|].
  pose proof (Z.mod_pos_bound i _ Hlen) as [Hlo Hhi].
  exists (i mod Z.of_nat (List.length ks)). unfold list_get.
  destruct (i mod Z.of_nat (List.length ks) <? 0) eqn:E1;
    [apply Z.ltb_lt in E1; lia|].
  rewrite E1. simpl.
  destruct (Z.of_nat (List.length ks) <=? i mod Z.of_nat (List.length ks)) eqn:E2;
    [apply Z.leb_le in E2; lia|].
  destruct (nth_error ks (Z.to_nat (i mod Z.of_nat (List.length ks)))) as [k|] eqn:Hn.
  - exists k. repeat split. eapply nth_error_In. eassumption.
  - apply nth_error_None in Hn. lia.
Qed.

(** One turn of the reconciliation loop, spelled out: it never raises when
    the allocation has the keys of the weight map. *)
Lemma recon_body_step (ks : list string) (min_block : Z) (s : recon_state) :
  ks <> [] -> keys (raw s) = ks ->
  exists k v,
    In k ks /\ dict_get k (raw s) = Returned v /\
    recon_body ks min_block s =
    Returned (if 0 <? diff s
              then mkRecon (dict_set k (v + 1) (raw s)) (diff s - 1) (idx s + 1)
              else if min_block <? v
                   then mkRecon (dict_set k (v - 1) (raw s)) (diff s + 1) (idx s + 1)
                   else mkRecon (raw s) (diff s) (idx s + 1)).
Proof.
  intros Hne Hk.
  destruct (round_robin_pick ks (idx s) Hne) as (m & k & Hm & Hget & Hin).
  destruct (dict_get_some k (raw s)) as [v Hv]; [rewrite Hk; assumption|].
  exists k, v. repeat split; try assumption.
  unfold recon_body. rewrite Hm. simpl. rewrite Hget. simpl.
  destruct (0 <? diff s); rewrite Hv; simpl; [reflexivity|].
  destruct (min_block <? v); reflexivity.
Qed.

Lemma initial_allocation_keys total_minutes weights min_block raw1 :
  initial_allocation total_minutes weights min_block = Returned raw1 ->
  keys raw1 = keys weights.
Proof.
  unfold initial_allocation. intros H. bind_inv H. injection H as <-.
  rewrite bump_keys. eapply mapM_scaled_keys. eassumption.
Qed.

Lemma keys_nonempty {V : Type} (d : dict V) : d <> [] -> keys d <> [].
Proof. destruct d; [congruence|discriminate]. Qed.

Lemma slack_nonneg (min_block : Z) (d : dict Z) : 0 <= slack min_block d.
Proof.
  unfold slack. induction (values d) as [|v l IH]; simpl; lia.
Qed.

Lemma dict_set_slack (min_block : Z) (k : string) (d : dict Z) (v : Z) :
  dict_get k d = Returned v -> min_block < v ->
  slack min_block (dict_set k (v - 1) d) = slack min_block d - 1.
Proof.
  unfold slack. intros Hget Hv.
  induction d as [|[k' w] d IH]; simpl in *; [discriminate|].
  destruct (String.eqb k k'); simpl.
  - injection Hget as <-. lia.
  - rewrite (IH Hget). lia.
Qed.

(** X6: when the bumped allocations exceed the budget by more than they
    hold above the minimum block, the reconciliation loop runs out of
    minutes it may take away before the difference is made up, and
    [distribute_time] never returns. *)
Theorem distribute_time_runs_forever :
  forall (fuel : nat) (total_minutes : Z) (weights : dict PyFloat.float)
         (min_block : Z) (raw1 : dict Z),
    weights <> [] ->
    0 < total_minutes ->
    initial_allocation total_minutes weights min_block = Returned raw1 ->
    slack min_block raw1 < zsum (values raw1) - total_minutes ->
    distribute_time fuel total_minutes weights min_block = OutOfFuel.
Proof.
  intros fuel total_minutes weights min_block raw1 Hne Ht Hinit Hover.
  unfold distribute_time.
  destruct (total_minutes <=? 0) eqn:Hle; [apply Z.leb_le in Hle; lia|].
  rewrite Hinit. simpl.
  rewrite (while_diverges _ _
             (fun s => keys (raw s) = keys weights /\
                       slack min_block (raw s) < - diff s));
    [reflexivity| |split; simpl].
  - intros s [Hks Hslack].
    pose proof (slack_nonneg min_block (raw s)) as H0.
    destruct (recon_body_step (keys weights) min_block s
                (keys_nonempty weights Hne) Hks) as (k & v & _ & Hv & Hb).
    split.
    + unfold recon_cond.
      destruct (keys weights) eqn:E;
        [exfalso; apply (keys_nonempty weights Hne); assumption|].
      rewrite andb_true_r. apply negb_true_iff. apply Z.eqb_neq. lia.
    + rewrite Hb.
      destruct (0 <? diff s) eqn:Hd; [apply Z.ltb_lt in Hd; lia|].
      destruct (min_block <? v) eqn:Hmv.
      * apply Z.ltb_lt in Hmv. eexists. split; [reflexivity|]. simpl.
        rewrite (dict_set_keys k (raw s) v (v - 1) Hv).
        rewrite (dict_set_slack min_block k (raw s) v Hv Hmv).
        split; [assumption|lia].
      * eexists. split; [reflexivity|]. simpl. auto.
  - eapply initial_allocation_keys. eassumption.
  - lia.
Qed.

Lemma distribute_time_runs_forever_witness :
  distribute_time 1000 30 crowded_weights 25 = OutOfFuel.
Proof.
  apply (distribute_time_runs_forever 1000 30 crowded_weights 25 crowded_alloc).
  - discriminate.
  - lia.
  - reflexivity.
  - vm_compute. reflexivity.
Defined.

(** X7: when the bumped allocations do not exceed the budget, the
    reconciliation loop hands out the missing minutes one by one and
    [distribute_time] returns; as many turns as minutes are missing
    suffice. *)
Theorem distribute_time_returns_when_short :
  forall (fuel : nat) (total_minutes : Z) (weights : dict PyFloat.float)
         (min_block : Z) (raw1 : dict Z),
    weights <> [] ->
    0 < total_minutes ->
    initial_allocation total_minutes weights min_block = Returned raw1 ->
    zsum (values raw1) <= total_minutes ->
    (Z.to_nat (total_minutes - zsum (values raw1)) <= fuel)%nat ->
    exists alloc,
      distribute_time fuel total_minutes weights min_block = Returned alloc.
Proof.
  intros fuel total_minutes weights min_block raw1 Hne Ht Hinit Hshort Hfuel.
  unfold distribute_time.
  destruct (total_minutes <=? 0) eqn:Hle; [apply Z.leb_le in Hle; lia|].
  rewrite Hinit. simpl.
  destruct (while_terminates
              (recon_cond (keys weights)) (recon_body (keys weights) min_block)
              (fun s => keys (raw s) = keys weights /\ 0 <= diff s)
              (fun s => Z.to_nat (diff s))) with
      (fuel := fuel)
      (s := mkRecon raw1 (total_minutes - zsum (values raw1)) 0) as [r Hr].
  - intros s [Hks Hd] Hc.
    destruct (recon_body_step (keys weights) min_block s
                (keys_nonempty weights Hne) Hks) as (k & v & _ & Hv & Hb).
    rewrite Hb. unfold recon_cond in Hc.
    apply andb_true_iff in Hc. destruct Hc as [Hc _].
    apply negb_true_iff in Hc. apply Z.eqb_neq in Hc.
    destruct (0 <? diff s) eqn:Hpos; [|apply Z.ltb_ge in Hpos; lia].
    eexists. split; [reflexivity|]. simpl.
    rewrite (dict_set_keys k (raw s) v (v + 1) Hv).
    repeat split; try assumption; lia.
  - simpl. split; [|lia]. eapply initial_allocation_keys. eassumption.
  - simpl. assumption.
  - rewrite Hr. simpl. eauto.
Qed.

Lemma distribute_time_returns_when_short_witness :
  exists alloc, distribute_time 1 100 thirds 25 = Returned alloc.
Proof.
  apply (distribute_time_returns_when_short 1 100 thirds 25
           [("A", 33); ("B", 33); ("C", 33)]%string).
  - discriminate.
  - lia.
  - vm_compute. reflexivity.
  - simpl. lia.
  - apply Nat.leb_le. reflexivity.
Defined.

Lemma pointwise_refl (R : Z -> Z -> Prop) (d : dict Z) :
  (forall v, R v v) -> pointwise R d d.
Proof.
  intros HR. induction d as [|e d IH]; constructor; auto.
Qed.

Lemma pointwise_keys (R : Z -> Z -> Prop) (d0 d : dict Z) :
  pointwise R d0 d -> keys d0 = keys d.
Proof.
  induction 1 as [|e0 e d0 d [Hk _] _ IH]; simpl; [reflexivity|].
  f_equal; assumption.
Qed.

Lemma pointwise_get (R : Z -> Z -> Prop) (d0 d : dict Z) (k : string) (v0 : Z) :
  pointwise R d0 d -> dict_get k d0 = Returned v0 ->
  exists v, dict_get k d = Returned v /\ R v0 v.
Proof.
  induction 1 as [|[k0 w0] [k1 w1] d0 d [Hk HR] _ IH]; simpl;
    [discriminate|].
  simpl in Hk, HR. subst k1.
  destruct (String.eqb k k0); [|exact IH].
  intros H. injection H as <-. eauto.
Qed.

Lemma dict_set_pointwise (R : Z -> Z -> Prop) (d0 d : dict Z)
      (k : string) (v v' : Z) :
  pointwise R d0 d -> dict_get k d = Returned v ->
  (forall v0, R v0 v -> R v0 v') ->
  pointwise R d0 (dict_set k v' d).
Proof.
  intros Hp. revert v.
  induction Hp as [|[k0 w0] [k1 w1] d0 d [Hk HR] Hrest IH]; simpl;
    intros v Hget Hmove; [discriminate|].
  simpl in Hk, HR.
  destruct (String.eqb k k1).
  - injection Hget as <-. constructor; [|assumption]. split; simpl; auto.
  - constructor; [split; assumption|]. eapply IH; eassumption.
Qed.

(** What the reconciliation keeps about the direction of its moves. *)
Lemma recon_body_direction (min_block : Z) (raw1 : dict Z)
      (short : bool) (s s' : recon_state) :
  keys raw1 <> [] ->
  (pointwise (moved_toward short min_block) raw1 (raw s) /\
   (if short then 0 <= diff s else diff s <= 0)) ->
  recon_cond (keys raw1) s = true ->
  recon_body (keys raw1) min_block s = Returned s' ->
  pointwise (moved_toward short min_block) raw1 (raw s') /\
  (if short then 0 <= diff s' else diff s' <= 0).
Proof.
  intros Hne [Hp Hsign] Hc Hb.
  destruct (recon_body_step (keys raw1) min_block s Hne
              (eq_sym (pointwise_keys _ _ _ Hp))) as (k & v & _ & Hv & Hstep).
  rewrite Hstep in Hb. clear Hstep.
  unfold recon_cond in Hc. apply andb_true_iff in Hc. destruct Hc as [Hc _].
  apply negb_true_iff in Hc. apply Z.eqb_neq in Hc.
  destruct (0 <? diff s) eqn:Hpos.
  - apply Z.ltb_lt in Hpos. injection Hb as <-. simpl.
    destruct short; [|lia]. split; [|lia].
    apply (dict_set_pointwise _ _ _ k v (v + 1) Hp Hv).
    unfold moved_toward. intros v0 H. lia.
  - apply Z.ltb_ge in Hpos.
    destruct short; [lia|].
    destruct (min_block <? v) eqn:Hmv; injection Hb as <-; simpl.
    + apply Z.ltb_lt in Hmv. split; [|lia].
      apply (dict_set_pointwise _ _ _ k v (v - 1) Hp Hv).
      unfold moved_toward. intros v0 H. lia.
    + split; assumption.
Qed.

(** X8: the reconciliation only moves allocations toward the budget.  When
    the bumped allocations fall short of it, no subject ends below its
    bumped allocation; when they exceed it, no subject ends above its
    bumped allocation, nor below the smaller of that allocation and the
    minimum block. *)
Theorem distribute_time_moves_toward_budget :
  forall (fuel : nat) (total_minutes : Z) (weights : dict PyFloat.float)
         (min_block : Z) (raw1 alloc : dict Z),
    weights <> [] ->
    0 < total_minutes ->
    initial_allocation total_minutes weights min_block = Returned raw1 ->
    distribute_time fuel total_minutes weights min_block = Returned alloc ->
    pointwise (moved_toward (zsum (values raw1) <=? total_minutes) min_block)
              raw1 alloc.
Proof.
  intros fuel total_minutes weights min_block raw1 alloc Hne Ht Hinit H.
  unfold distribute_time in H.
  destruct (total_minutes <=? 0) eqn:Hle; [apply Z.leb_le in Hle; lia|].
  rewrite Hinit in H. simpl in H. bind_inv H. injection H as <-.
  pose proof (initial_allocation_keys _ _ _ _ Hinit) as Hk.
  rewrite <- Hk in Hret.
  set (short := zsum (values raw1) <=? total_minutes) in *.
  apply (while_invariant _ _
           (fun s => pointwise (moved_toward short min_block) raw1 (raw s) /\
                     (if short then 0 <= diff s else diff s <= 0))) in Hret.
  - apply Hret.
  - intros s s'. apply recon_body_direction.
    intros E. apply (keys_nonempty weights Hne). rewrite <- Hk. exact E.
  - simpl. split.
    + apply pointwise_refl. intros v. unfold moved_toward.
      destruct short; lia.
    + subst short.
      destruct (zsum (values raw1) <=? total_minutes) eqn:E;
        [apply Z.leb_le in E|apply Z.leb_gt in E]; lia.
Qed.

Lemma distribute_time_moves_toward_budget_witness :
  pointwise (moved_toward true 25)
            [("A", 33); ("B", 33); ("C", 33)]%string thirds_alloc.
Proof.
  apply (distribute_time_moves_toward_budget 1 100 thirds 25
           [("A", 33); ("B", 33); ("C", 33)]%string thirds_alloc).
  - discriminate.
  - lia.
  - vm_compute. reflexivity.
  - vm_compute. reflexivity.
Defined.

Lemma bump_at_least_one (total_minutes min_block : Z) (d : dict Z) :
  1 <= min_block <= total_minutes ->
  Forall (fun v => 0 <= v) (values d) ->
  Forall (fun v => 1 <= v) (values (bump total_minutes min_block d)).
Proof.
  intros [Hlo Hhi]. induction d as [|[k v] d IH]; simpl; intros H;
    [constructor|].
  inversion H as [|? ? Hv Hd]; subst.
  constructor; [|apply IH; assumption].
  destruct (v =? 0) eqn:Ez; simpl.
  - apply Z.leb_le in Hhi. rewrite Hhi. simpl. assumption.
  - apply Z.eqb_neq in Ez. lia.
Qed.

(** X9: with a minimum block between 1 and the budget and no weight below
    zero, no subject of a returned allocation is left without time: every
    subject has at least one minute. *)
Theorem distribute_time_leaves_no_subject_empty :
  forall (fuel : nat) (total_minutes : Z) (weights : dict PyFloat.float)
         (min_block : Z) (alloc : dict Z),
    weights <> [] ->
    1 <= min_block <= total_minutes ->
    Forall (fun w => PyFloat.nonneg w = true) (values weights) ->
    distribute_time fuel total_minutes weights min_block = Returned alloc ->
    Forall (fun v => 1 <= v) (values alloc).
Proof.
  intros fuel total_minutes weights min_block alloc Hne Hmb Hw H.
  unfold distribute_time in H.
  destruct (total_minutes <=? 0) eqn:Hle; [apply Z.leb_le in Hle; lia|].
  bind_inv H. rename a into raw1. bind_inv H. rename a into s.
  injection H as <-.
  unfold initial_allocation in Hret. bind_inv Hret. rename a into raw0.
  injection Hret as <-.
  assert (Ht : 0 < total_minutes) by lia.
  assert (Hinit : recon_inv (fun v => 1 <= v) total_minutes (keys weights)
                    (mkRecon (bump total_minutes min_block raw0)
                       (total_minutes -
                        zsum (values (bump total_minutes min_block raw0))) 0)).
  { unfold recon_inv. simpl. repeat split.
    - apply bump_at_least_one; [assumption|].
      apply (mapM_scaled_nonneg _ _ _ Ht Hw Hret1).
    - rewrite bump_keys. apply mapM_scaled_keys with (1 := Hret1). }
  apply (recon_exit total_minutes min_block (keys weights) (fun v => 1 <= v))
    with (fuel := fuel) (s0 := mkRecon (bump total_minutes min_block raw0)
                       (total_minutes -
                        zsum (values (bump total_minutes min_block raw0))) 0);
    try assumption.
  - intros v Hv. lia.
  - intros v Hv Hlt. lia.
  - apply keys_nonempty. assumption.
Qed.

Lemma distribute_time_leaves_no_subject_empty_witness :
  Forall (fun v => 1 <= v) (values thirds_alloc).
Proof.
  apply (distribute_time_leaves_no_subject_empty 1 100 thirds 25 thirds_alloc).
  - discriminate.
  - lia.
  - repeat constructor.
  - vm_compute. reflexivity.
Defined.

(** ** Where exceptions come from *)

(** A loop raises only what its body raises, at a state the invariant
    describes. *)
Lemma while_raised {St : Type} (cond : St -> bool) (body : St -> outcome St)
      (Inv : St -> Prop) :
  (forall s s', Inv s -> cond s = true -> body s = Returned s' -> Inv s') ->
  forall fuel s e, Inv s -> while cond body fuel s = Raised e ->
                   exists s', Inv s' /\ cond s' = true /\ body s' = Raised e.
Proof.
  intros Hstep. induction fuel as [|n IH]; intros s e Hi H; simpl in H.
  - destruct (cond s); discriminate H.
  - destruct (cond s) eqn:Hc; [|discriminate H].
    destruct (body s) as [s'| e' |] eqn:Hb; simpl in H.
    + eapply IH; [|eassumption]. eapply Hstep; eassumption.
    + injection H as <-. eauto.
    + discriminate H.
Qed.

Lemma mapM_raised {A B : Type} (f : A -> outcome B) (l : list A) (e : exn) :
  mapM f l = Raised e -> exists x, In x l /\ f x = Raised e.
Proof.
  induction l as [|x l IH]; simpl; [discriminate|].
  destruct (f x) as [y| e' |] eqn:Hx; simpl.
  - destruct (mapM f l) as [ys| e' |]; simpl; try discriminate.
    intros H. injection H as <-.
    destruct IH as (x' & Hin & Hx'); [reflexivity|]. eauto.
  - intros H. injection H as <-. eauto.
  - discriminate.
Qed.

Lemma foldM_raised {A B : Type} (f : A -> B -> outcome A) (P : A -> Prop) :
  (forall a x a', P a -> f a x = Returned a' -> P a') ->
  forall l a e, P a -> foldM f l a = Raised e ->
                exists a' x, P a' /\ In x l /\ f a' x = Raised e.
Proof.
  intros Hstep. induction l as [|x l IH]; simpl; intros a e Ha H;
    [discriminate|].
  destruct (f a x) as [a'| e' |] eqn:Hx; simpl in H.
  - destruct (IH a' e) as (a'' & x' & Hp & Hin & Hr); [eauto|assumption|].
    eauto 6.
  - injection H as <-. eauto 6.
  - discriminate.
Qed.

Lemma to_int_raised (x : PyFloat.float) (e : exn) :
  PyFloat.to_int x = Raised e -> e = ValueError \/ e = OverflowError.
Proof.
  destruct x as [s|s| |s m x]; simpl; intros H; try discriminate H;
    injection H as <-; auto.
Qed.

Lemma scaled_minutes_raised (total_minutes : Z) (w : PyFloat.float) (e : exn) :
  scaled_minutes total_minutes w = Raised e ->
  e = ValueError \/ e = OverflowError.
Proof.
  unfold scaled_minutes, PyFloat.of_int.
  destruct (PyFloat.of_Z total_minutes) as [st|st| |st mt et];
    cbn [bind]; intros H;
    try (apply to_int_raised in H; exact H).
  injection H as <-. auto.
Qed.

Lemma initial_allocation_raised total_minutes weights min_block e :
  initial_allocation total_minutes weights min_block = Raised e ->
  e = ValueError \/ e = OverflowError.
Proof.
  unfold initial_allocation. intros H.
  destruct (mapM _ weights) as [raw0| e' |] eqn:Hm; simpl in H;
    try discriminate H.
  injection H as <-. apply mapM_raised in Hm. destruct Hm as ([k w] & _ & Hx).
  simpl in Hx.
  destruct (scaled_minutes total_minutes w) as [n| e2 |] eqn:Hs; simpl in Hx;
    try discriminate Hx.
  injection Hx as <-. eapply scaled_minutes_raised. eassumption.
Qed.

(** The reconciliation loop itself raises nothing. *)
Lemma recon_loop_never_raises fuel total_minutes weights min_block raw1 d0 e :
  initial_allocation total_minutes weights min_block = Returned raw1 ->
  while (recon_cond (keys weights)) (recon_body (keys weights) min_block) fuel
        (mkRecon raw1 d0 0) <> Raised e.
Proof.
  intros Hinit Hw.
  apply (while_raised _ _
           (fun s => keys (raw s) = keys weights)) in Hw.
  - destruct Hw as (s' & Hk & Hc & Hb).
    assert (Hne : keys weights <> []).
    { unfold recon_cond in Hc. destruct (keys weights); [|discriminate].
      rewrite andb_false_r in Hc. discriminate Hc. }
    destruct (recon_body_step (keys weights) min_block s' Hne Hk)
      as (k & v & _ & _ & Hstep).
    rewrite Hstep in Hb. discriminate Hb.
  - intros s s' Hk Hc Hb.
    assert (Hne : keys weights <> []).
    { unfold recon_cond in Hc. destruct (keys weights); [|discriminate].
      rewrite andb_false_r in Hc. discriminate Hc. }
    destruct (recon_body_step (keys weights) min_block s Hne Hk)
      as (k & v & _ & Hv & Hstep).
    rewrite Hstep in Hb.
    destruct (0 <? diff s); [|destruct (min_block <? v)];
      injection Hb as <-; simpl; try assumption;
      erewrite dict_set_keys; eassumption.
  - simpl. eapply initial_allocation_keys. eassumption.
Qed.

Lemma distribute_time_raised_cases fuel total_minutes weights min_block e :
  distribute_time fuel total_minutes weights min_block = Raised e ->
  e = ValueError \/ e = OverflowError.
Proof.
  intros H. unfold distribute_time in H.
  destruct (total_minutes <=? 0); [discriminate H|].
  destruct (initial_allocation total_minutes weights min_block)
    as [raw1| e' |] eqn:Hinit; simpl in H; try discriminate H.
  - exfalso.
    destruct (while (recon_cond (keys weights))
                    (recon_body (keys weights) min_block) fuel _)
      as [s| e2 |] eqn:Hw; simpl in H; try discriminate H.
    injection H as <-.
    exact (recon_loop_never_raises _ _ _ _ _ _ _ Hinit Hw).
  - injection H as <-. eapply initial_allocation_raised. eassumption.
Qed.

(** X10: [distribute_time] raises only for a budget above zero, and then
    nothing but the [ValueError] and [OverflowError] of the conversions
    between integers and floats; its round-robin indexing and its
    dictionary updates never fail. *)
Theorem distribute_time_raises_only_conversion_errors :
  forall (fuel : nat) (total_minutes : Z) (weights : dict PyFloat.float)
         (min_block : Z) (e : exn),
    distribute_time fuel total_minutes weights min_block = Raised e ->
    0 < total_minutes /\ (e = ValueError \/ e = OverflowError).
Proof.
  intros fuel total_minutes weights min_block e H. split.
  - unfold distribute_time in H.
    destruct (total_minutes <=? 0) eqn:Hle; [discriminate H|].
    apply Z.leb_gt in Hle. assumption.
  - eapply distribute_time_raised_cases. eassumption.
Qed.

Lemma distribute_time_raises_only_conversion_errors_witness :
  0 < 60 /\ (ValueError = ValueError \/ ValueError = OverflowError).
Proof.
  apply (distribute_time_raises_only_conversion_errors
           0 60 [("A", S754_nan)]%string 25 ValueError).
  reflexivity.
Defined.

(** ** More on the schedule assembler *)

Lemma foldM_invariant_in {A B : Type} (f : A -> B -> outcome A) (P : A -> Prop)
      (l : list B) :
  (forall a x a', In x l -> P a -> f a x = Returned a' -> P a') ->
  forall a r, P a -> foldM f l a = Returned r -> P r.
Proof.
  induction l as [|x l IH]; simpl; intros Hstep a r Ha H.
  - injection H as <-. assumption.
  - bind_inv H. eapply IH; [|eapply Hstep; eauto|eassumption].
    intros a1 y a2 Hy. apply Hstep. auto.
Qed.

Lemma foldM_returned_all {A B : Type} (f : A -> B -> outcome A) (l : list B) :
  forall a r, foldM f l a = Returned r ->
              Forall (fun x => exists a0 a1, f a0 x = Returned a1) l.
Proof.
  induction l as [|x l IH]; simpl; intros a r H; [constructor|].
  bind_inv H. constructor; [eauto|]. eapply IH. eassumption.
Qed.

(** A returned allocation has the keys of the weight map, budget or not. *)
Lemma distribute_time_keys fuel total_minutes weights min_block alloc :
  distribute_time fuel total_minutes weights min_block = Returned alloc ->
  keys alloc = keys weights.
Proof.
  unfold distribute_time. intros H.
  destruct (total_minutes <=? 0).
  - injection H as <-. apply (keys_map_const (fun _ => 0)).
  - bind_inv H. rename a into raw1. bind_inv H. injection H as <-.
    apply (while_invariant _ _
             (recon_inv (fun _ => True) total_minutes (keys weights))
             (recon_body_inv total_minutes min_block (keys weights)
                (fun _ => True) (fun _ _ => I) (fun _ _ _ => I))) in Hret0.
    + destruct Hret0 as [(_ & _ & Hk) _]. assumption.
    + unfold recon_inv. simpl. repeat split.
      * apply Forall_forall. intros; exact I.
      * eapply initial_allocation_keys. eassumption.
Qed.

(** X11: [build_schedule] returns a table only if every listed subject is a
    key of the priority map; a subject without a priority stops the call
    at [per_subject[subj]]. *)
Theorem build_schedule_needs_known_subjects :
  forall (np_sum : list PyFloat.float -> PyFloat.float) (now : Z) (fuel : nat)
         (subjects : list string) (priorities : dict PyFloat.float)
         (total_minutes : Z) (start_time : option Z)
         (focus_len short_break long_break_every long_break_len : Z)
         (rs : list row),
    build_schedule np_sum now fuel subjects priorities total_minutes start_time
                   focus_len short_break long_break_every long_break_len
    = Returned rs ->
    Forall (fun subj => In subj (keys priorities)) subjects.
Proof.
  intros np_sum now fuel subjects priorities total_minutes start_time
         focus_len short_break lbe lbl rs H.
  apply build_schedule_returned in H.
  destruct H as (per_subject & st & Hd & Hs & _).
  apply distribute_time_keys in Hd. rewrite normalize_weights_keys in Hd.
  unfold schedule_blocks in Hs. apply foldM_returned_all in Hs.
  eapply Forall_impl; [|exact Hs].
  intros subj (st0 & st1 & Hsubj). unfold schedule_subject in Hsubj.
  bind_inv Hsubj. rewrite <- Hd. eapply dict_get_key. eassumption.
Qed.

Lemma build_schedule_needs_known_subjects_witness :
  Forall (fun subj => In subj (keys example_priorities)) example_subjects.
Proof.
  apply (build_schedule_needs_known_subjects array_sum 0 2 example_subjects
           example_priorities 180 (Some nine_o_clock) 45 10 3 20
           (example_rows nine_o_clock)).
  vm_compute. reflexivity.
Defined.

(** A subject without a priority: the call raises [KeyError]. *)
Example build_schedule_unknown_subject :
  build_schedule array_sum 0 2 ["Math"; "Art"]%string example_priorities 180
                 (Some nine_o_clock) 45 10 3 20 = Raised KeyError.
Proof. vm_compute. reflexivity. Qed.

(** X12: with [long_break_every = 0] the first study block stops the call
    at the modulo, so the only table [build_schedule] can return is the
    empty one. *)
Theorem build_schedule_zero_cadence :
  forall (np_sum : list PyFloat.float -> PyFloat.float) (now : Z) (fuel : nat)
         (subjects : list string) (priorities : dict PyFloat.float)
         (total_minutes : Z) (start_time : option Z)
         (focus_len short_break long_break_len : Z) (rs : list row),
    build_schedule np_sum now fuel subjects priorities total_minutes start_time
                   focus_len short_break 0 long_break_len
    = Returned rs ->
    rs = [].
Proof.
  intros np_sum now fuel subjects priorities total_minutes start_time
         focus_len short_break lbl rs H.
  apply build_schedule_returned in H.
  destruct H as (per_subject & st & _ & Hs & <-).
  unfold schedule_blocks in Hs.
  apply (foldM_invariant _ (fun st => rows st = [])) in Hs;
    [assumption| |reflexivity].
  intros st0 subj st1 Hempty Hsubj. unfold schedule_subject in Hsubj.
  bind_inv Hsubj. bind_inv Hsubj. rename a0 into sessions.
  destruct (split_into_sessions_head _ _ _ _ _ Hret0)
    as [-> | (d & rest & ->)].
  - injection Hsubj as <-. assumption.
  - cbn [foldM] in Hsubj. bind_inv Hsubj. apply emit_cases in Hret1.
    cbn [fst snd] in Hret1.
    destruct Hret1 as [(Hk & _) | [(_ & Hne & _) | (_ & Hne & _)]];
      [discriminate Hk|congruence|congruence].
Qed.

Lemma build_schedule_zero_cadence_witness :
  @nil row = [].
Proof.
  apply (build_schedule_zero_cadence array_sum 0 0 example_subjects
           example_priorities 0 (Some nine_o_clock) 45 10 20 []).
  vm_compute. reflexivity.
Defined.

(** With minutes to place, the call raises [ZeroDivisionError]. *)
Example build_schedule_zero_cadence_raises :
  build_schedule array_sum 0 2 example_subjects example_priorities 180
                 (Some nine_o_clock) 45 10 0 20 = Raised ZeroDivisionError.
Proof. vm_compute. reflexivity. Qed.

Lemma emitted_labelled subjects subj lbl t s long :
  In subj subjects -> Forall (row_labelled subjects) (emitted subj lbl t s long).
Proof.
  intros Hin. destruct s as [dur knd]. unfold emitted.
  constructor.
  - unfold row_labelled. simpl. destruct knd; simpl; auto.
  - destruct long; constructor; [reflexivity|constructor].
Qed.

Lemma emit_appends subj lbe lbl st s st' :
  emit subj lbe lbl st s = Returned st' ->
  exists long, rows st' = rows st ++ emitted subj lbl (cur st) s long.
Proof.
  intros H. apply emit_cases in H.
  destruct H as [(_ & H & _) | [(_ & _ & _ & H & _) | (_ & _ & _ & H & _)]];
    eauto.
Qed.

(** X13: in every table [build_schedule] returns, a study row carries one
    of the listed subjects and a break row, short or long, carries the
    empty string. *)
Theorem build_schedule_rows_labelled :
  forall (np_sum : list PyFloat.float -> PyFloat.float) (now : Z) (fuel : nat)
         (subjects : list string) (priorities : dict PyFloat.float)
         (total_minutes : Z) (start_time : option Z)
         (focus_len short_break long_break_every long_break_len : Z)
         (rs : list row),
    build_schedule np_sum now fuel subjects priorities total_minutes start_time
                   focus_len short_break long_break_every long_break_len
    = Returned rs ->
    Forall (row_labelled subjects) rs.
Proof.
  intros np_sum now fuel subjects priorities total_minutes start_time
         focus_len short_break lbe lbl rs H.
  apply build_schedule_returned in H.
  destruct H as (per_subject & st & _ & Hs & <-).
  unfold schedule_blocks in Hs.
  apply (foldM_invariant_in _ (fun st => Forall (row_labelled subjects) (rows st)))
    in Hs; [assumption| |constructor].
  intros st0 subj st1 Hin Hall Hsubj. unfold schedule_subject in Hsubj.
  bind_inv Hsubj. bind_inv Hsubj.
  apply (foldM_invariant _ (fun st => Forall (row_labelled subjects) (rows st)))
    in Hsubj; [assumption| |assumption].
  intros stA s stB HA He. apply emit_appends in He. destruct He as [long ->].
  apply Forall_app. split; [assumption|].
  apply emitted_labelled. assumption.
Qed.

Lemma build_schedule_rows_labelled_witness :
  Forall (row_labelled example_subjects) (example_rows nine_o_clock).
Proof.
  apply (build_schedule_rows_labelled array_sum 0 2 example_subjects
           example_priorities 180 (Some nine_o_clock) 45 10 3 20
           (example_rows nine_o_clock)).
  vm_compute. reflexivity.
Defined.

Lemma emitted_within focus_len short_break subj lbl t s long :
  block_within focus_len short_break s ->
  Forall (row_within focus_len short_break lbl) (emitted subj lbl t s long).
Proof.
  intros Hb. destruct s as [dur knd]. unfold emitted, block_within in *.
  simpl in Hb. constructor.
  - unfold row_within. simpl. destruct knd; auto.
  - destruct long; constructor; [|constructor].
    unfold row_within. simpl. auto.
Qed.

(** X14: with a positive focus length and a positive short break, every
    study row of a returned table lasts between 1 and [focus_len] minutes,
    and every break row is a short break of 1 to [short_break] minutes or a
    long break of [long_break_len] minutes. *)
Theorem build_schedule_rows_within :
  forall (np_sum : list PyFloat.float -> PyFloat.float) (now : Z) (fuel : nat)
         (subjects : list string) (priorities : dict PyFloat.float)
         (total_minutes : Z) (start_time : option Z)
         (focus_len short_break long_break_every long_break_len : Z)
         (rs : list row),
    0 < focus_len -> 0 < short_break ->
    build_schedule np_sum now fuel subjects priorities total_minutes start_time
                   focus_len short_break long_break_every long_break_len
    = Returned rs ->
    Forall (row_within focus_len short_break long_break_len) rs.
Proof.
  intros np_sum now fuel subjects priorities total_minutes start_time
         focus_len short_break lbe lbl rs Hf Hsb H.
  apply build_schedule_returned in H.
  destruct H as (per_subject & st & _ & Hs & <-).
  unfold schedule_blocks in Hs.
  apply (foldM_invariant _
           (fun st => Forall (row_within focus_len short_break lbl) (rows st)))
    in Hs; [assumption| |constructor].
  intros st0 subj st1 Hall Hsubj. unfold schedule_subject in Hsubj.
  bind_inv Hsubj. bind_inv Hsubj. rename a0 into sessions.
  assert (Hsess : Forall (block_within focus_len short_break) sessions).
  { unfold split_into_sessions in Hret0. bind_inv Hret0.
    injection Hret0 as <-. eapply split_loop_within; eassumption. }
  apply (foldM_invariant_in _
           (fun st => Forall (row_within focus_len short_break lbl) (rows st)))
    in Hsubj; [assumption| |assumption].
  intros stA s stB Hin HA He. apply emit_appends in He. destruct He as [long ->].
  apply Forall_app. split; [assumption|].
  apply emitted_within. apply (proj1 (Forall_forall _ _) Hsess s Hin).
Qed.

Lemma build_schedule_rows_within_witness :
  Forall (row_within 45 10 20) (example_rows nine_o_clock).
Proof.
  apply (build_schedule_rows_within array_sum 0 2 example_subjects
           example_priorities 180 (Some nine_o_clock) 45 10 3 20
           (example_rows nine_o_clock)); [lia|lia|].
  vm_compute. reflexivity.
Defined.

(** *** Accounting for the minutes on the table *)

(** One more study block adds one to the number of long breaks exactly
    when the new count is a multiple of the cadence. *)
Lemma cadence_div (c lbe : Z) :
  0 < lbe ->
  (c + 1) / lbe = c / lbe + (if (c + 1) mod lbe =? 0 then 1 else 0).
Proof.
  intros Hl.
  pose proof (Z.div_mod c lbe ltac:(lia)) as Hc.
  pose proof (Z.mod_pos_bound c lbe Hl) as Hcb.
  pose proof (Z.div_mod (c + 1) lbe ltac:(lia)) as Hc1.
  pose proof (Z.mod_pos_bound (c + 1) lbe Hl) as Hc1b.
  destruct ((c + 1) mod lbe =? 0) eqn:E;
    [apply Z.eqb_eq in E|apply Z.eqb_neq in E]; nia.
Qed.

Lemma emit_planned subj lbe lbl st s st' :
  0 < lbe ->
  emit subj lbe lbl st s = Returned st' ->
  planned_minutes lbe lbl st' = planned_minutes lbe lbl st + fst s.
Proof.
  intros Hl H. apply emit_cases in H. unfold planned_minutes.
  destruct H as [(_ & -> & _ & ->) | [(_ & _ & Hm & -> & _ & ->)
                                     | (_ & _ & Hm & -> & _ & ->)]];
    rewrite row_minutes_app, row_minutes_emitted;
    try rewrite (cadence_div _ _ Hl).
  - lia.
  - apply Z.eqb_neq in Hm. rewrite Hm. lia.
  - apply Z.eqb_eq in Hm. rewrite Hm. lia.
Qed.

Lemma foldM_emit_planned subj lbe lbl (sessions : list session) :
  0 < lbe ->
  forall st st',
    foldM (emit subj lbe lbl) sessions st = Returned st' ->
    planned_minutes lbe lbl st' =
    planned_minutes lbe lbl st + zsum (durations sessions).
Proof.
  intros Hl. induction sessions as [|s sessions IH]; simpl; intros st st' H.
  - injection H as <-. lia.
  - bind_inv H. rewrite (IH _ _ H), (emit_planned _ _ _ _ _ _ Hl Hret). lia.
Qed.

(** A subject puts its allocation on the table, or nothing when the
    allocation is negative. *)
Lemma schedule_subject_planned fuel per_subject focus_len short_break lbe lbl
      st subj st' :
  0 < lbe ->
  schedule_subject fuel per_subject focus_len short_break lbe lbl st subj
  = Returned st' ->
  exists minutes,
    dict_get subj per_subject = Returned minutes /\
    planned_minutes lbe lbl st' =
    planned_minutes lbe lbl st + Z.max 0 minutes.
Proof.
  intros Hl H. unfold schedule_subject in H.
  bind_inv H. rename a into minutes. bind_inv H. rename a into sessions.
  exists minutes. split; [assumption|].
  rewrite (foldM_emit_planned _ _ _ _ Hl _ _ H). f_equal.
  destruct (Z.le_gt_cases 0 minutes) as [Hm|Hm].
  - rewrite (split_into_sessions_sum _ _ _ _ _ Hm Hret0). lia.
  - rewrite split_into_sessions_empty in Hret0 by lia.
    injection Hret0 as <-. simpl. lia.
Qed.

Lemma schedule_blocks_planned fuel per_subject focus_len short_break lbe lbl
      (subjects : list string) :
  0 < lbe ->
  forall st st',
    foldM (schedule_subject fuel per_subject focus_len short_break lbe lbl)
          subjects st = Returned st' ->
    exists mins,
      mapM (fun subj => dict_get subj per_subject) subjects = Returned mins /\
      planned_minutes lbe lbl st' =
      planned_minutes lbe lbl st + zsum (map (Z.max 0) mins).
Proof.
  intros Hl. induction subjects as [|subj subjects IH]; simpl; intros st st' H.
  - injection H as <-. exists []. split; [reflexivity|]. simpl. lia.
  - bind_inv H.
    destruct (schedule_subject_planned _ _ _ _ _ _ _ _ _ Hl Hret)
      as (minutes & Hget & Hp).
    destruct (IH _ _ H) as (mins & Hm & Hps).
    exists (minutes :: mins). rewrite Hget, Hm. simpl.
    split; [reflexivity|]. lia.
Qed.

Lemma mapM_ext_in {A B : Type} (f g : A -> outcome B) (l : list A) :
  (forall x, In x l -> f x = g x) -> mapM f l = mapM g l.
Proof.
  induction l as [|x l IH]; simpl; intros H; [reflexivity|].
  rewrite (H x) by auto. rewrite IH by auto. reflexivity.
Qed.

(** Looking up the keys of a dictionary, in order, gives its values. *)
Lemma mapM_get_keys {V : Type} (d : dict V) :
  NoDup (keys d) ->
  mapM (fun k => dict_get k d) (keys d) = Returned (values d).
Proof.
  induction d as [|[k v] d IH]; simpl; intros Hnd; [reflexivity|].
  inversion Hnd as [|? ? Hnotin Hrest]; subst.
  rewrite String.eqb_refl. simpl.
  rewrite (mapM_ext_in _ (fun k' => dict_get k' d)).
  - rewrite (IH Hrest). reflexivity.
  - intros k' Hin. destruct (String.eqb k' k) eqn:E; [|reflexivity].
    apply String.eqb_eq in E. subst k'. contradiction.
Qed.

Lemma max0_nonneg (l : list Z) :
  Forall (fun v => 0 <= v) l -> map (Z.max 0) l = l.
Proof.
  induction 1 as [|v l Hv _ IH]; simpl; [reflexivity|].
  rewrite IH. f_equal. lia.
Qed.

(** With weights that are not below zero, the minutes of a returned
    allocation are not negative and sum to the budget. *)
Lemma distribute_time_alloc fuel total_minutes weights min_block alloc :
  weights <> [] -> 0 < total_minutes -> 0 <= min_block ->
  Forall (fun w => PyFloat.nonneg w = true) (values weights) ->
  distribute_time fuel total_minutes weights min_block = Returned alloc ->
  Forall (fun v => 0 <= v) (values alloc) /\
  zsum (values alloc) = total_minutes.
Proof.
  intros Hne Ht Hmb Hw H.
  unfold distribute_time in H.
  destruct (total_minutes <=? 0) eqn:Hle; [apply Z.leb_le in Hle; lia|].
  bind_inv H. rename a into raw1. bind_inv H. rename a into s.
  injection H as <-.
  unfold initial_allocation in Hret. bind_inv Hret. rename a into raw0.
  injection Hret as <-.
  apply (recon_exit total_minutes min_block (keys weights) (fun v => 0 <= v))
    with (fuel := fuel) (s0 := mkRecon (bump total_minutes min_block raw0)
                       (total_minutes -
                        zsum (values (bump total_minutes min_block raw0))) 0);
    try assumption.
  - intros v Hv. lia.
  - intros v Hv Hlt. lia.
  - apply keys_nonempty. assumption.
  - unfold recon_inv. simpl. repeat split.
    + apply bump_nonneg; [assumption|].
      apply (mapM_scaled_nonneg _ _ _ Ht Hw Hret1).
    + rewrite bump_keys. apply mapM_scaled_keys with (1 := Hret1).
Qed.

(** X15: when the subjects are the keys of a priority map with no priority
    below zero, the budget is above zero and the cadence is positive, the
    minutes on a returned table are the budget plus one long break for every
    [long_break_every] study rows: short breaks come out of the budget, long
    breaks come on top of it. *)
Theorem build_schedule_minutes :
  forall (np_sum : list PyFloat.float -> PyFloat.float) (now : Z) (fuel : nat)
         (priorities : dict PyFloat.float)
         (total_minutes : Z) (start_time : option Z)
         (focus_len short_break long_break_every long_break_len : Z)
         (rs : list row),
    priorities <> [] ->
    NoDup (keys priorities) ->
    Forall (fun v => PyFloat.nonneg v = true) (values priorities) ->
    PyFloat.nonneg (np_sum (values priorities)) = true ->
    0 < total_minutes ->
    0 < long_break_every ->
    build_schedule np_sum now fuel (keys priorities) priorities total_minutes
                   start_time focus_len short_break
                   long_break_every long_break_len
    = Returned rs ->
    row_minutes rs =
    total_minutes + long_break_len * (count_study rs / long_break_every).
Proof.
  intros np_sum now fuel priorities total_minutes start_time
         focus_len short_break lbe lbl rs Hne Hnd Hp Hsum Ht Hl H.
  apply build_schedule_returned in H.
  destruct H as (per_subject & st & Hd & Hs & <-).
  pose proof (distribute_time_keys _ _ _ _ _ Hd) as Hk.
  rewrite normalize_weights_keys in Hk.
  pose proof (normalize_weights_values_nonneg np_sum priorities Hp Hsum) as Hw.
  assert (Hwne : normalize_weights np_sum priorities <> []).
  { intros E. apply (keys_nonempty priorities Hne).
    rewrite <- (normalize_weights_keys np_sum), E. reflexivity. }
  assert (Hmb : 0 <= Z.min 25 total_minutes) by lia.
  destruct (distribute_time_alloc _ _ _ _ _ Hwne Ht Hmb Hw Hd)
    as [Hpos Hzsum].
  pose proof (schedule_blocks_cadence _ _ _ _ _ _ _ _ _ Hs) as [Hc _].
  unfold schedule_blocks in Hs.
  destruct (schedule_blocks_planned _ _ _ _ _ lbl _ Hl _ _ Hs)
    as (mins & Hm & Hplan).
  rewrite <- Hk in Hm.
  rewrite mapM_get_keys in Hm by (rewrite Hk; assumption).
  injection Hm as <-.
  rewrite (max0_nonneg _ Hpos), Hzsum in Hplan.
  unfold planned_minutes in Hplan. cbn [rows study_block_counter] in Hplan.
  rewrite Hc in Hplan.
  change (row_minutes []) with 0 in Hplan.
  rewrite Z.div_0_l in Hplan by lia. lia.
Qed.

Lemma build_schedule_minutes_witness :
  row_minutes (example_rows nine_o_clock) =
  180 + 20 * (count_study (example_rows nine_o_clock) / 3).
Proof.
  apply (build_schedule_minutes array_sum 0 2 example_priorities 180
           (Some nine_o_clock) 45 10 3 20 (example_rows nine_o_clock)).
  - discriminate.
  - repeat constructor; simpl; intuition discriminate.
  - repeat constructor.
  - reflexivity.
  - lia.
  - lia.
  - vm_compute. reflexivity.
Defined.

Lemma demand_lookups (per_subject : dict Z) (subjects : list string)
      (mins : list Z) :
  mapM (fun subj => dict_get subj per_subject) subjects = Returned mins ->
  demand per_subject subjects = zsum (map (Z.max 0) mins).
Proof.
  unfold demand. revert mins.
  induction subjects as [|subj subjects IH]; simpl; intros mins H.
  - injection H as <-. reflexivity.
  - bind_inv H. bind_inv H. injection H as <-.
    rewrite Hret. simpl. rewrite (IH _ Hret0). reflexivity.
Qed.

(** X24: with a positive cadence, the minutes on a returned table are what
    the listed subjects ask for, each occurrence of a subject counting its
    whole allocation, plus one long break for every [long_break_every]
    study rows: a subject listed twice is scheduled twice. *)
Theorem build_schedule_minutes_by_subject :
  forall (np_sum : list PyFloat.float -> PyFloat.float) (now : Z) (fuel : nat)
         (subjects : list string) (priorities : dict PyFloat.float)
         (total_minutes : Z) (start_time : option Z)
         (focus_len short_break long_break_every long_break_len : Z)
         (rs : list row),
    0 < long_break_every ->
    build_schedule np_sum now fuel subjects priorities total_minutes start_time
                   focus_len short_break long_break_every long_break_len
    = Returned rs ->
    exists per_subject,
      distribute_time fuel total_minutes (normalize_weights np_sum priorities)
                      (Z.min 25 total_minutes) = Returned per_subject /\
      row_minutes rs =
      demand per_subject subjects
      + long_break_len * (count_study rs / long_break_every).
Proof.
  intros np_sum now fuel subjects priorities total_minutes start_time
         focus_len short_break lbe lbl rs Hl H.
  apply build_schedule_returned in H.
  destruct H as (per_subject & st & Hd & Hs & <-).
  exists per_subject. split; [assumption|].
  pose proof (schedule_blocks_cadence _ _ _ _ _ _ _ _ _ Hs) as [Hc _].
  unfold schedule_blocks in Hs.
  destruct (schedule_blocks_planned _ _ _ _ _ lbl _ Hl _ _ Hs)
    as (mins & Hm & Hplan).
  rewrite (demand_lookups _ _ _ Hm).
  unfold planned_minutes in Hplan. cbn [rows study_block_counter] in Hplan.
  rewrite Hc in Hplan.
  change (row_minutes []) with 0 in Hplan.
  rewrite Z.div_0_l in Hplan by lia. lia.
Qed.

Lemma build_schedule_minutes_by_subject_witness :
  exists per_subject,
    distribute_time 2 180 (normalize_weights array_sum example_priorities)
                    (Z.min 25 180) = Returned per_subject /\
    row_minutes (example_rows nine_o_clock) =
    demand per_subject example_subjects
    + 20 * (count_study (example_rows nine_o_clock) / 3).
Proof.
  apply (build_schedule_minutes_by_subject array_sum 0 2 example_subjects
           example_priorities 180 (Some nine_o_clock) 45 10 3 20
           (example_rows nine_o_clock)); [lia|].
  vm_compute. reflexivity.
Defined.

Lemma timeline_last (front : list row) (r : row) : forall t,
  timeline t (front ++ [r]) ->
  end_ r = strftime_HM (t + row_minutes (front ++ [r])).
Proof.
  induction front as [|r0 front IH]; simpl; intros t H.
  - destruct H as (_ & He & _). rewrite He. f_equal.
    unfold row_minutes. simpl. lia.
  - destruct H as (_ & _ & Hrest). rewrite (IH _ Hrest). f_equal.
    unfold row_minutes. simpl. lia.
Qed.

(** X16: the last row of a returned table ends at the start time plus the
    minutes of all its rows, long breaks included: the day runs for as long
    as the table says and no longer. *)
Theorem build_schedule_ends_after_all_minutes :
  forall (np_sum : list PyFloat.float -> PyFloat.float) (now : Z) (fuel : nat)
         (subjects : list string) (priorities : dict PyFloat.float)
         (total_minutes : Z) (start_time : option Z)
         (focus_len short_break long_break_every long_break_len : Z)
         (front : list row) (r : row),
    build_schedule np_sum now fuel subjects priorities total_minutes start_time
                   focus_len short_break long_break_every long_break_len
    = Returned (front ++ [r]) ->
    end_ r = strftime_HM (effective_start now start_time
                          + row_minutes (front ++ [r])).
Proof.
  intros np_sum now fuel subjects priorities total_minutes start_time
         focus_len short_break lbe lbl front r H.
  apply build_schedule_returned in H.
  destruct H as (per_subject & st & _ & Hst & Hrows).
  apply timeline_last. rewrite <- Hrows.
  apply (schedule_blocks_timeline _ _ _ _ _ _ _ _ _ Hst).
Qed.

Lemma build_schedule_ends_after_all_minutes_witness :
  "12:20"%string =
  strftime_HM (nine_o_clock + row_minutes (example_rows nine_o_clock)).
Proof.
  apply (build_schedule_ends_after_all_minutes array_sum 0 2 example_subjects
           example_priorities 180 (Some nine_o_clock) 45 10 3 20
           (removelast (example_rows nine_o_clock))
           (mkRow "11:55" "12:20" 25 study "AI")).
  vm_compute. reflexivity.
Defined.

Lemma dict_get_zeros {A : Type} (k : string) (d : dict A) :
  In k (keys d) ->
  dict_get k (map (fun kv => (fst kv, 0)) d) = Returned 0.
Proof.
  induction d as [|[k' v] d IH]; simpl; [intros []|].
  destruct (String.eqb k k') eqn:E; [reflexivity|].
  intros [H|H]; [|auto].
  subst k'. rewrite String.eqb_refl in E. discriminate E.
Qed.

(** X17: with a budget that is not above zero and every subject known,
    [build_schedule] returns the empty table, whatever the other
    arguments: every subject is allotted 0 minutes and nothing is
    scheduled, not even a break. *)
Theorem build_schedule_no_budget :
  forall (np_sum : list PyFloat.float -> PyFloat.float) (now : Z) (fuel : nat)
         (subjects : list string) (priorities : dict PyFloat.float)
         (total_minutes : Z) (start_time : option Z)
         (focus_len short_break long_break_every long_break_len : Z),
    total_minutes <= 0 ->
    Forall (fun subj => In subj (keys priorities)) subjects ->
    build_schedule np_sum now fuel subjects priorities total_minutes start_time
                   focus_len short_break long_break_every long_break_len
    = Returned [].
Proof.
  intros np_sum now fuel subjects priorities total_minutes start_time
         focus_len short_break lbe lbl Ht Hsub.
  unfold build_schedule, distribute_time.
  apply Z.leb_le in Ht. rewrite Ht. cbn [bind].
  assert (Hloop : forall st0,
             foldM (schedule_subject fuel
                      (map (fun kv => (fst kv, 0))
                           (normalize_weights np_sum priorities))
                      focus_len short_break lbe lbl) subjects st0
             = Returned st0).
  { induction Hsub as [|subj subjects Hin _ IH]; intros st0; simpl;
      [reflexivity|].
    unfold schedule_subject at 1.
    rewrite dict_get_zeros by (rewrite normalize_weights_keys; assumption).
    cbn [bind].
    rewrite split_into_sessions_empty by lia. cbn [bind foldM].
    apply IH. }
  unfold schedule_blocks. rewrite Hloop. reflexivity.
Qed.

Lemma build_schedule_no_budget_witness :
  build_schedule array_sum nine_o_clock 0 example_subjects example_priorities
                 0 None 45 10 3 20 = Returned [].
Proof.
  apply (build_schedule_no_budget array_sum nine_o_clock 0 example_subjects
           example_priorities 0 None 45 10 3 20).
  - lia.
  - repeat (apply Forall_cons; [simpl; auto 10|]). apply Forall_nil.
Defined.

(** *** What the assembler can raise *)

Lemma dict_get_raised {V : Type} (k : string) (d : dict V) (e : exn) :
  dict_get k d = Raised e -> e = KeyError /\ ~ In k (keys d).
Proof.
  induction d as [|[k' v] d IH]; simpl.
  - intros H. injection H as <-. auto.
  - destruct (String.eqb k k') eqn:E; [discriminate|].
    intros H. destruct (IH H) as [-> Hn]. split; [reflexivity|].
    intros [Hk|Hk]; [|contradiction].
    subst k'. rewrite String.eqb_refl in E. discriminate E.
Qed.

Lemma split_into_sessions_never_raises fuel minutes focus_len short_break e :
  split_into_sessions fuel minutes focus_len short_break <> Raised e.
Proof.
  unfold split_into_sessions. intros H.
  destruct (while split_cond (split_body focus_len short_break) fuel _)
    as [s| e' |] eqn:Hw; simpl in H; try discriminate H.
  apply (while_raised _ _ (fun _ => True)) in Hw; [|auto|exact I].
  destruct Hw as (s' & _ & _ & Hb). unfold split_body in Hb.
  destruct (remaining s' <=? focus_len);
    [|destruct (0 <? remaining s' - focus_len)]; discriminate Hb.
Qed.

Lemma datetime_add_raised (t d : Z) (e : exn) :
  datetime_add t d = Raised e -> e = OverflowError.
Proof.
  unfold datetime_add.
  destruct ((0 <=? t + d) && (t + d <? datetime_minutes)); intros H;
    [discriminate H|injection H as <-; reflexivity].
Qed.

Lemma emit_raised subj lbe lbl st s e :
  emit subj lbe lbl st s = Raised e ->
  e = OverflowError \/ (e = ZeroDivisionError /\ lbe = 0).
Proof.
  destruct s as [dur knd]. unfold emit.
  destruct (datetime_add (cur st) dur) as [t| e' |] eqn:Ht; cbn [bind];
    [|intros H; injection H as <-; left; eapply datetime_add_raised; eassumption
     |discriminate].
  destruct knd; cbn [kind_eqb]; [|discriminate].
  unfold py_mod. destruct (lbe =? 0) eqn:Ez; cbn [bind].
  - intros H. injection H as <-. right. apply Z.eqb_eq in Ez. auto.
  - destruct ((study_block_counter st + 1) mod lbe =? 0); [|discriminate].
    destruct (datetime_add t lbl) as [t'| e' |] eqn:Ht'; cbn [bind];
      [discriminate| |discriminate].
    intros H. injection H as <-. left. eapply datetime_add_raised. eassumption.
Qed.

Lemma schedule_blocks_raised fuel per_subject subjects start_time
      focus_len short_break lbe lbl e :
  schedule_blocks fuel per_subject subjects start_time
                  focus_len short_break lbe lbl = Raised e ->
  e = OverflowError \/ (e = ZeroDivisionError /\ lbe = 0) \/
  (e = KeyError /\
   exists subj, In subj subjects /\ ~ In subj (keys per_subject)).
Proof.
  intros Hs. unfold schedule_blocks in Hs.
  apply (foldM_raised _ (fun _ => True)) in Hs; [|auto|exact I].
  destruct Hs as (st & subj & _ & Hin & Hsubj).
  unfold schedule_subject in Hsubj.
  destruct (dict_get subj per_subject) as [minutes| e2 |] eqn:Hget;
    cbn [bind] in Hsubj; try discriminate Hsubj.
  - destruct (split_into_sessions fuel minutes focus_len short_break)
      as [sessions| e2 |] eqn:Hsp; cbn [bind] in Hsubj;
      try discriminate Hsubj.
    + apply (foldM_raised _ (fun _ => True)) in Hsubj; [|auto|exact I].
      destruct Hsubj as (st' & s & _ & _ & He).
      apply emit_raised in He. tauto.
    + exfalso. eapply split_into_sessions_never_raises. eassumption.
  - injection Hsubj as <-. apply dict_get_raised in Hget.
    destruct Hget as [-> Hn]. right. right.
    split; [reflexivity|]. exists subj. auto.
Qed.

(** An exception of [build_schedule] comes from the allocation or from the
    loops over the subjects. *)
Lemma build_schedule_raised np_sum now fuel subjects priorities total_minutes
      start_time focus_len short_break lbe lbl e :
  build_schedule np_sum now fuel subjects priorities total_minutes start_time
                 focus_len short_break lbe lbl = Raised e ->
  distribute_time fuel total_minutes (normalize_weights np_sum priorities)
                  (Z.min 25 total_minutes) = Raised e \/
  exists per_subject,
    keys per_subject = keys priorities /\
    schedule_blocks fuel per_subject subjects (effective_start now start_time)
                    focus_len short_break lbe lbl = Raised e.
Proof.
  unfold build_schedule. intros H.
  destruct (distribute_time fuel total_minutes
              (normalize_weights np_sum priorities) (Z.min 25 total_minutes))
    as [per_subject| e' |] eqn:Hd; cbn [bind] in H; try discriminate H.
  - right. exists per_subject. split.
    + rewrite <- (normalize_weights_keys np_sum).
      eapply distribute_time_keys. eassumption.
    + destruct (schedule_blocks fuel per_subject subjects _ focus_len
                                short_break lbe lbl) as [st| e' |];
        cbn [bind] in H; try discriminate H.
      injection H as <-. reflexivity.
  - left. injection H as <-. reflexivity.
Qed.

(** X18: [build_schedule] raises only four kinds of exception: the
    [ValueError] and [OverflowError] of float conversions and of dates past
    year 9999, [ZeroDivisionError] and then [long_break_every] is 0, and
    [KeyError] and then some listed subject has no priority.  With known
    subjects and a cadence that is not 0 it never raises [KeyError],
    [IndexError] or [ZeroDivisionError]. *)
Theorem build_schedule_raises :
  forall (np_sum : list PyFloat.float -> PyFloat.float) (now : Z) (fuel : nat)
         (subjects : list string) (priorities : dict PyFloat.float)
         (total_minutes : Z) (start_time : option Z)
         (focus_len short_break long_break_every long_break_len : Z)
         (e : exn),
    build_schedule np_sum now fuel subjects priorities total_minutes start_time
                   focus_len short_break long_break_every long_break_len
    = Raised e ->
    e = ValueError \/ e = OverflowError \/
    (e = ZeroDivisionError /\ long_break_every = 0) \/
    (e = KeyError /\
     exists subj, In subj subjects /\ ~ In subj (keys priorities)).
Proof.
  intros np_sum now fuel subjects priorities total_minutes start_time
         focus_len short_break lbe lbl e H.
  apply build_schedule_raised in H.
  destruct H as [Hd | (per_subject & Hk & Hs)].
  - apply distribute_time_raised_cases in Hd. tauto.
  - apply schedule_blocks_raised in Hs. rewrite Hk in Hs. tauto.
Qed.

Lemma build_schedule_raises_witness :
  KeyError = ValueError \/ KeyError = OverflowError \/
  (KeyError = ZeroDivisionError /\ 3 = 0) \/
  (KeyError = KeyError /\
   exists subj, In subj ["Math"; "Art"]%string /\
                ~ In subj (keys example_priorities)).
Proof.
  apply (build_schedule_raises array_sum 0 2 ["Math"; "Art"]%string
           example_priorities 180 (Some nine_o_clock) 45 10 3 20 KeyError).
  vm_compute. reflexivity.
Defined.

(** ** Study time in a plan *)

Lemma study_blocks_app (l1 l2 : list session) :
  study_blocks (l1 ++ l2) = study_blocks l1 + study_blocks l2.
Proof. unfold study_blocks. rewrite filter_app, length_app. lia. Qed.

Lemma study_total_app (l1 l2 : list session) :
  study_total (l1 ++ l2) = study_total l1 + study_total l2.
Proof.
  unfold study_total. rewrite filter_app, durations_app, zsum_app. reflexivity.
Qed.

Lemma split_body_rounds minutes focus_len short_break s s' :
  0 < focus_len -> 0 <= short_break ->
  split_rounds minutes focus_len short_break s -> split_cond s = true ->
  split_body focus_len short_break s = Returned s' ->
  split_rounds minutes focus_len short_break s'.
Proof.
  unfold split_rounds, split_cond, split_body. intros Hf Hsb Hinv Hc Hb.
  apply Z.ltb_lt in Hc.
  destruct Hinv as [(_ & Hrem & Htot) | (H0 & _)]; [|lia].
  assert (Hj : 0 <= study_blocks (plan s)) by (unfold study_blocks; lia).
  set (j := study_blocks (plan s)) in *.
  destruct (remaining s <=? focus_len) eqn:Hle.
  - apply Z.leb_le in Hle. injection Hb as <-. cbn [plan remaining].
    rewrite study_blocks_app, study_total_app. fold j.
    change (study_blocks [(remaining s, study)]) with 1.
    change (study_total [(remaining s, study)]) with (remaining s + 0).
    right. split; [reflexivity|]. nia.
  - apply Z.leb_gt in Hle.
    destruct (0 <? remaining s - focus_len) eqn:Hpos;
      [|apply Z.ltb_ge in Hpos; lia].
    injection Hb as <-. cbn [plan remaining].
    rewrite !study_blocks_app, !study_total_app. fold j.
    change (study_blocks [(focus_len, study)]) with 1.
    change (study_total [(focus_len, study)]) with (focus_len + 0).
    change (study_blocks [(Z.min short_break (remaining s - focus_len), break)])
      with 0.
    change (study_total [(Z.min short_break (remaining s - focus_len), break)])
      with 0.
    destruct (Z.le_gt_cases (remaining s - focus_len) short_break) as [Hlast|Hmore].
    + right. rewrite Z.min_r by assumption. split; [lia|]. nia.
    + left. rewrite Z.min_l by lia. nia.
Qed.

(** X19: for positive minutes and focus length and a short break that is
    not negative, a returned plan has one study block for every round of
    [focus_len + short_break] minutes begun, and its study blocks hold
    [focus_len] minutes each, except that the last one takes what is left
    when that is less. *)
Theorem split_into_sessions_study_time :
  forall (fuel : nat) (minutes focus_len short_break : Z) (l : list session),
    0 < minutes -> 0 < focus_len -> 0 <= short_break ->
    split_into_sessions fuel minutes focus_len short_break = Returned l ->
    study_blocks l = (minutes - 1) / (focus_len + short_break) + 1 /\
    study_total l =
    Z.min (study_blocks l * focus_len)
          (minutes - (study_blocks l - 1) * short_break).
Proof.
  intros fuel minutes focus_len short_break l Hm Hf Hsb H.
  unfold split_into_sessions in H. bind_inv H. injection H as <-.
  apply (while_invariant split_cond (split_body focus_len short_break)
           (split_rounds minutes focus_len short_break)
           (fun s s' => split_body_rounds minutes focus_len short_break s s'
                          Hf Hsb)) in Hret.
  - destruct Hret as [Hinv Hc]. unfold split_cond in Hc.
    apply Z.ltb_ge in Hc.
    destruct Hinv as [(Hpos & _) | (_ & Hbounds & Htot)]; [lia|].
    split; [|assumption].
    set (j := study_blocks (plan a)) in *.
    assert (Hq : (minutes - 1) / (focus_len + short_break) = j - 1).
    { symmetry.
      apply (Z.div_unique (minutes - 1) (focus_len + short_break) (j - 1)
               (minutes - 1 - (j - 1) * (focus_len + short_break))); nia. }
    lia.
  - unfold split_rounds. simpl. left.
    change (study_blocks []) with 0. change (study_total []) with 0. lia.
Qed.

Lemma split_into_sessions_study_time_witness :
  study_blocks [(45, study); (10, break); (5, study)] = (60 - 1) / (45 + 10) + 1 /\
  study_total [(45, study); (10, break); (5, study)] =
  Z.min (study_blocks [(45, study); (10, break); (5, study)] * 45)
        (60 - (study_blocks [(45, study); (10, break); (5, study)] - 1) * 10).
Proof.
  apply (split_into_sessions_study_time 2 60 45 10); [lia|lia|lia|reflexivity].
Defined.

(** ** The wizard's subjects and priorities *)

Lemma dict_set_keys_new {V : Type} (k : string) (v : V) (d : dict V) :
  ~ In k (keys d) -> keys (dict_set k v d) = keys d ++ [k].
Proof.
  induction d as [|[k' v'] d IH]; simpl; intros Hn; [reflexivity|].
  destruct (String.eqb k k') eqn:E.
  - apply String.eqb_eq in E. subst k'. exfalso. apply Hn. auto.
  - simpl. f_equal. apply IH. intros H. apply Hn. auto.
Qed.

(** Assigning to a key keeps the keys when it is there and appends it when
    it is not. *)
Lemma dict_set_keys_cases {V : Type} (k : string) (v : V) (d : dict V) :
  (In k (keys d) /\ keys (dict_set k v d) = keys d) \/
  (~ In k (keys d) /\ keys (dict_set k v d) = keys d ++ [k]).
Proof.
  destruct (in_dec string_dec k (keys d)) as [Hin|Hn].
  - left. split; [assumption|].
    destruct (dict_get_some k d Hin) as [v0 Hv0].
    eapply dict_set_keys. eassumption.
  - right. split; [assumption|]. apply dict_set_keys_new. assumption.
Qed.

Lemma consistent_add (subjects : list string) (priorities : dict PyFloat.float)
      (name : string) (pr : PyFloat.float) :
  consistent (subjects, priorities) ->
  consistent (subjects ++ [name], dict_set name pr priorities).
Proof.
  unfold consistent. simpl. intros (Hsub & Hkeys & Hnd).
  destruct (dict_set_keys_cases name pr priorities) as [[Hin ->] | [Hn ->]].
  - repeat split; try assumption.
    + apply Forall_app. split; [assumption|]. constructor; [assumption|constructor].
    + intros k Hk. apply in_or_app. left. auto.
  - repeat split.
    + apply Forall_app. split.
      * eapply Forall_impl; [|exact Hsub]. intros s Hs.
        apply in_or_app. left. assumption.
      * constructor; [|constructor]. apply in_or_app. right. left. reflexivity.
    + intros k Hk. apply in_app_or in Hk. apply in_or_app.
      destruct Hk as [Hk|Hk]; [left; auto|right; assumption].
    + apply NoDup_app; [assumption|repeat constructor; intros []|].
      intros k Hk [<-|[]]. contradiction.
Qed.

Lemma add_pair_consistent strip float_of_string acc p acc' :
  consistent acc ->
  add_pair strip float_of_string acc p = Returned acc' ->
  consistent acc'.
Proof.
  destruct acc as [subjects priorities]. unfold add_pair. intros Hc H.
  destruct (split_once ":" p) as [[name val]|].
  - bind_inv H. injection H as <-. apply consistent_add. assumption.
  - injection H as <-. apply consistent_add. assumption.
Qed.

Lemma default_consistent : consistent (default_subjects, default_priorities).
Proof.
  unfold consistent. simpl. repeat split.
  - repeat (apply Forall_cons; [simpl; auto 10|]). apply Forall_nil.
  - intros k Hk. exact Hk.
  - repeat constructor; simpl; intuition discriminate.
Qed.

Lemma wizard_subjects_returned strip float_of_string content acc :
  wizard_subjects strip float_of_string content = Returned acc ->
  fst acc <> [] /\ consistent acc.
Proof.
  intros H. unfold wizard_subjects in H. bind_inv H.
  destruct a as [subs prios].
  apply (foldM_invariant _ consistent) in Hret.
  - simpl in H. destruct subs as [|s subs]; injection H as <-.
    + split; [discriminate|apply default_consistent].
    + split; [discriminate|assumption].
  - intros acc0 p acc1. apply add_pair_consistent.
  - unfold consistent. simpl. repeat split; [constructor|tauto|constructor].
Qed.

(** X20: whatever the user types, the subjects and priorities the wizard
    hands on go together: there is at least one subject, every subject has
    a priority, every priority belongs to a listed subject, and no subject
    has two priorities. *)
Theorem wizard_subjects_consistent :
  forall (strip : string -> string)
         (float_of_string : string -> outcome PyFloat.float)
         (content : option string)
         (subjects : list string) (priorities : dict PyFloat.float),
    wizard_subjects strip float_of_string content
    = Returned (subjects, priorities) ->
    subjects <> [] /\ priorities <> [] /\ consistent (subjects, priorities).
Proof.
  intros strip float_of_string content subjects priorities H.
  apply wizard_subjects_returned in H. destruct H as [Hne Hc].
  simpl in Hne. split; [assumption|]. split; [|assumption].
  destruct Hc as (Hsub & _ & _). simpl in Hsub.
  destruct subjects as [|s subjects]; [congruence|].
  inversion Hsub as [|? ? Hin _]; subst.
  intros ->. destruct Hin.
Qed.

Lemma wizard_subjects_consistent_witness :
  ["Math"; "Math"; "AI"]%string <> [] /\
  [("Math", float_one); ("AI", float_one)]%string <> [] /\
  consistent (["Math"; "Math"; "AI"]%string,
              [("Math", float_one); ("AI", float_one)]%string).
Proof.
  apply (wizard_subjects_consistent lstrip_spaces float_of_nothing
           (Some "Math:3, Math:x,AI"%string)).
  vm_compute. reflexivity.
Defined.

(** X21: a plan built from what the wizard hands on never fails on a
    missing key: [build_schedule] raises no [KeyError] on the wizard's
    subjects and priorities, whatever was typed. *)
Theorem wizard_plan_has_no_key_error :
  forall (strip : string -> string)
         (float_of_string : string -> outcome PyFloat.float)
         (content : option string)
         (subjects : list string) (priorities : dict PyFloat.float)
         (np_sum : list PyFloat.float -> PyFloat.float) (now : Z) (fuel : nat)
         (total_minutes : Z) (start_time : option Z)
         (focus_len short_break long_break_every long_break_len : Z),
    wizard_subjects strip float_of_string content
    = Returned (subjects, priorities) ->
    build_schedule np_sum now fuel subjects priorities total_minutes start_time
                   focus_len short_break long_break_every long_break_len
    <> Raised KeyError.
Proof.
  intros strip float_of_string content subjects priorities np_sum now fuel
         total_minutes start_time focus_len short_break lbe lbl Hw H.
  apply wizard_subjects_returned in Hw. destruct Hw as [_ (Hsub & _ & _)].
  simpl in Hsub.
  apply build_schedule_raised in H.
  destruct H as [Hd | (per_subject & Hk & Hs)].
  - apply distribute_time_raised_cases in Hd.
    destruct Hd as [Hd|Hd]; discriminate Hd.
  - apply schedule_blocks_raised in Hs.
    destruct Hs as [Hs | [[Hs _] | (_ & subj & Hin & Hn)]];
      try discriminate Hs.
    apply Hn. rewrite Hk.
    apply (proj1 (Forall_forall _ _) Hsub subj Hin).
Qed.

Lemma wizard_plan_has_no_key_error_witness :
  build_schedule array_sum nine_o_clock 2 ["Math"; "Math"; "AI"]%string
                 [("Math", float_one); ("AI", float_one)]%string
                 180 None 45 10 3 20 <> Raised KeyError.
Proof.
  apply (wizard_plan_has_no_key_error lstrip_spaces float_of_nothing
           (Some "Math:3, Math:x,AI"%string)).
  vm_compute. reflexivity.
Defined.

(** ** When the assembler returns *)

(** The inner loop returns when its blocks are within their limits and
    the clock has room for them and for a long break after each. *)
Lemma foldM_emit_returns subj focus_len short_break lbe lbl
      (sessions : list session) :
  lbe <> 0 -> 0 <= lbl ->
  Forall (block_within focus_len short_break) sessions ->
  forall st room,
    0 <= cur st -> 0 <= room ->
    cur st + zsum (durations sessions) * (1 + lbl) + room < datetime_minutes ->
    exists st',
      foldM (emit subj lbe lbl) sessions st = Returned st' /\
      0 <= cur st' /\
      cur st' + room < datetime_minutes.
Proof.
  intros Hlbe Hlbl Hall. induction Hall as [|[d k] sessions Hb Hrest IH];
    intros st room Hcur Hroom Hfit.
  - exists st. simpl in *. repeat split; [assumption|lia].
  - cbn [foldM]. unfold durations in *. cbn [map fst zsum fold_right] in Hfit.
    fold (zsum (map fst sessions)) in Hfit.
    unfold block_within in Hb. cbn [fst snd] in Hb.
    assert (Hsum : 0 <= zsum (map fst sessions)).
    { clear -Hrest. induction Hrest as [|[d' k'] l Hb' _ IHl]; simpl; [lia|].
      unfold block_within in Hb'. simpl in Hb'. destruct k'; lia. }
    assert (Hd : 1 <= d) by (destruct k; lia).
    unfold emit at 1.
    rewrite datetime_add_ok by nia. cbn [bind].
    destruct k; cbn [kind_eqb].
    + unfold py_mod. destruct (lbe =? 0) eqn:Ez;
        [apply Z.eqb_eq in Ez; contradiction|]. cbn [bind].
      destruct ((study_block_counter st + 1) mod lbe =? 0).
      * rewrite datetime_add_ok by nia. cbn [bind].
        apply IH; cbn [cur]; nia.
      * apply IH; cbn [cur]; nia.
    + apply IH; cbn [cur]; nia.
Qed.

Lemma schedule_subject_returns fuel per_subject focus_len short_break lbe lbl
      subj minutes :
  0 < focus_len -> 0 < short_break -> lbe <> 0 -> 0 <= lbl ->
  dict_get subj per_subject = Returned minutes ->
  (Z.to_nat minutes <= fuel)%nat ->
  forall st room,
    0 <= cur st -> 0 <= room ->
    cur st + Z.max 0 minutes * (1 + lbl) + room < datetime_minutes ->
    exists st',
      schedule_subject fuel per_subject focus_len short_break lbe lbl st subj
      = Returned st' /\
      0 <= cur st' /\
      cur st' + room < datetime_minutes.
Proof.
  intros Hf Hsb Hlbe Hlbl Hget Hfuel st room Hcur Hroom Hfit.
  unfold schedule_subject. rewrite Hget. cbn [bind].
  destruct (Z.le_gt_cases 0 minutes) as [Hm|Hm].
  - destruct (split_into_sessions_returns minutes focus_len short_break fuel)
      as [sessions Hs]; try lia.
    rewrite Hs. cbn [bind].
    pose proof (split_into_sessions_sum _ _ _ _ _ Hm Hs) as Hsum.
    apply foldM_emit_returns with (focus_len := focus_len)
                                  (short_break := short_break);
      try assumption.
    + unfold split_into_sessions in Hs. bind_inv Hs. injection Hs as <-.
      eapply split_loop_within; eassumption.
    + rewrite Hsum. lia.
  - rewrite split_into_sessions_empty by lia. cbn [bind foldM].
    exists st. repeat split; [assumption|lia].
Qed.

Lemma demand_nonneg per_subject subjects : 0 <= demand per_subject subjects.
Proof.
  unfold demand. induction subjects as [|s l IH]; simpl; [lia|].
  destruct (dict_get s per_subject); lia.
Qed.

(** X22: [build_schedule] returns a table whenever the allocation step
    returns, every listed subject has an allocation within the iteration
    budget, focus length and short break are positive, the cadence is not 0,
    the long break is not negative, and the calendar has room after the
    start time for the minutes asked for and a long break after each of
    them. *)
Theorem build_schedule_returns :
  forall (np_sum : list PyFloat.float -> PyFloat.float) (now : Z) (fuel : nat)
         (subjects : list string) (priorities : dict PyFloat.float)
         (total_minutes : Z) (start_time : option Z)
         (focus_len short_break long_break_every long_break_len : Z)
         (per_subject : dict Z),
    distribute_time fuel total_minutes (normalize_weights np_sum priorities)
                    (Z.min 25 total_minutes) = Returned per_subject ->
    Forall (fun subj => In subj (keys priorities)) subjects ->
    Forall (fun v => (Z.to_nat v <= fuel)%nat) (values per_subject) ->
    0 < focus_len -> 0 < short_break ->
    long_break_every <> 0 -> 0 <= long_break_len ->
    0 <= effective_start now start_time ->
    effective_start now start_time
    + demand per_subject subjects * (1 + long_break_len) < datetime_minutes ->
    exists rs,
      build_schedule np_sum now fuel subjects priorities total_minutes
                     start_time focus_len short_break
                     long_break_every long_break_len = Returned rs.
Proof.
  intros np_sum now fuel subjects priorities total_minutes start_time
         focus_len short_break lbe lbl per_subject
         Hd Hsub Hfuel Hf Hsb Hlbe Hlbl Hstart Hfit.
  unfold build_schedule. rewrite Hd. cbn [bind].
  pose proof (distribute_time_keys _ _ _ _ _ Hd) as Hk.
  rewrite normalize_weights_keys in Hk.
  assert (Hloop : forall st,
             0 <= cur st ->
             cur st + demand per_subject subjects * (1 + lbl) < datetime_minutes ->
             exists st',
               foldM (schedule_subject fuel per_subject focus_len short_break
                                       lbe lbl) subjects st = Returned st').
  { clear Hstart Hfit.
    induction Hsub as [|subj subjects Hin _ IH]; intros st Hcur Hroom.
    - exists st. reflexivity.
    - cbn [foldM].
      destruct (dict_get_some subj per_subject) as [minutes Hget];
        [rewrite Hk; assumption|].
      assert (Hdemand : demand per_subject (subj :: subjects) =
                        Z.max 0 minutes + demand per_subject subjects)
        by (unfold demand; simpl; rewrite Hget; reflexivity).
      rewrite Hdemand in Hroom.
      pose proof (demand_nonneg per_subject subjects) as Hdem.
      assert (Hroom0 : 0 <= demand per_subject subjects * (1 + lbl)) by nia.
      assert (Hfit0 : cur st + Z.max 0 minutes * (1 + lbl)
                      + demand per_subject subjects * (1 + lbl)
                      < datetime_minutes) by nia.
      destruct (schedule_subject_returns fuel per_subject focus_len short_break
                  lbe lbl subj minutes Hf Hsb Hlbe Hlbl Hget
                  (proj1 (Forall_forall _ _) Hfuel minutes
                     (dict_get_In _ _ _ Hget))
                  st (demand per_subject subjects * (1 + lbl))
                  Hcur Hroom0 Hfit0)
        as (st1 & Hst1 & Hcur1 & Hroom1).
      rewrite Hst1. cbn [bind]. apply IH; assumption. }
  unfold schedule_blocks.
  destruct (Hloop (mkSched [] (effective_start now start_time) 0))
    as [st' Hst']; try assumption.
  rewrite Hst'. cbn [bind]. eauto.
Qed.

Lemma build_schedule_returns_witness :
  exists rs,
    build_schedule array_sum nine_o_clock 80 example_subjects
                   example_priorities 180 None 45 10 3 20 = Returned rs.
Proof.
  apply (build_schedule_returns array_sum nine_o_clock 80 example_subjects
           example_priorities 180 None 45 10 3 20
           [("Math", 60); ("Python", 40); ("AI", 80)]%string).
  - vm_compute. reflexivity.
  - repeat (apply Forall_cons; [simpl; auto 10|]). apply Forall_nil.
  - repeat (apply Forall_cons; [apply Nat.leb_le; reflexivity|]).
    apply Forall_nil.
  - lia.
  - lia.
  - lia.
  - lia.
  - vm_compute. intros H. discriminate H.
  - vm_compute. reflexivity.
Defined.

(** ** When the reconciliation returns from above the budget *)

Lemma list_get_nth (ks : list string) (j : nat) (k : string) :
  nth_error ks j = Some k -> list_get ks (Z.of_nat j) = Returned k.
Proof.
  intros H. unfold list_get.
  assert (Hlt : (j < List.length ks)%nat)
    by (apply nth_error_Some; congruence).
  destruct (Z.of_nat j <? 0) eqn:E1; [apply Z.ltb_lt in E1; lia|].
  rewrite E1. simpl.
  destruct (Z.of_nat (List.length ks) <=? Z.of_nat j) eqn:E2;
    [apply Z.leb_le in E2; lia|].
  rewrite Nat2Z.id, H. reflexivity.
Qed.

(** One turn of the loop at a known key. *)
Lemma recon_body_at (ks : list string) (min_block : Z) (s : recon_state)
      (j : nat) (k : string) (v : Z) :
  idx s mod Z.of_nat (List.length ks) = Z.of_nat j ->
  nth_error ks j = Some k ->
  dict_get k (raw s) = Returned v ->
  recon_body ks min_block s =
  Returned (if 0 <? diff s
            then mkRecon (dict_set k (v + 1) (raw s)) (diff s - 1) (idx s + 1)
            else if min_block <? v
                 then mkRecon (dict_set k (v - 1) (raw s)) (diff s + 1) (idx s + 1)
                 else mkRecon (raw s) (diff s) (idx s + 1)).
Proof.
  intros Hmod Hnth Hv. unfold recon_body, py_mod.
  assert (Hlt : (j < List.length ks)%nat)
    by (apply nth_error_Some; congruence).
  destruct (Z.of_nat (List.length ks) =? 0) eqn:E;
    [apply Z.eqb_eq in E; lia|].
  cbn [bind]. rewrite Hmod, (list_get_nth ks j k Hnth). cbn [bind].
  destruct (0 <? diff s); rewrite Hv; cbn [bind]; [reflexivity|].
  destruct (min_block <? v); reflexivity.
Qed.

(** With distinct keys, slack above zero sits at a key the loop can
    reach. *)
Lemma slack_positive_key (min_block : Z) (d : dict Z) :
  NoDup (keys d) -> 0 < slack min_block d ->
  exists j k v, nth_error (keys d) j = Some k /\
                dict_get k d = Returned v /\ min_block < v.
Proof.
  unfold slack. induction d as [|[k v] d IH]; simpl; intros Hnd Hs; [lia|].
  inversion Hnd as [|? ? Hnotin Hrest]; subst.
  destruct (Z.lt_ge_cases min_block v) as [Hv|Hv].
  - exists 0%nat, k, v. rewrite String.eqb_refl. auto.
  - destruct IH as (j & k' & v' & Hj & Hget & Hlt); [assumption|lia|].
    exists (S j), k', v'. simpl. repeat split; try assumption.
    destruct (String.eqb k' k) eqn:E; [|assumption].
    apply String.eqb_eq in E. subst k'. exfalso. apply Hnotin.
    eapply nth_error_In. eassumption.
Qed.

(** From a state above the budget, the loop reaches the next key it may
    decrement within as many turns as that key is away, and takes one
    minute from it. *)
Lemma recon_progress (ks : list string) (min_block : Z) (o : nat) :
  forall s j k v,
    keys (raw s) = ks -> diff s < 0 ->
    (idx s + Z.of_nat o) mod Z.of_nat (List.length ks) = Z.of_nat j ->
    nth_error ks j = Some k ->
    dict_get k (raw s) = Returned v -> min_block < v ->
    exists (turns : nat) (s' : recon_state),
      (turns <= S o)%nat /\
      (forall fuel,
          while (recon_cond ks) (recon_body ks min_block) (turns + fuel) s =
          while (recon_cond ks) (recon_body ks min_block) fuel s') /\
      keys (raw s') = ks /\
      diff s' = diff s + 1 /\
      slack min_block (raw s') = slack min_block (raw s) - 1.
Proof.
  induction o as [|o IH]; intros s j k v Hk Hd Hmod Hnth Hv Hlt.
  - rewrite Z.add_0_r in Hmod.
    pose proof (recon_body_at ks min_block s j k v Hmod Hnth Hv) as Hb.
    destruct (0 <? diff s) eqn:E; [apply Z.ltb_lt in E; lia|].
    apply Z.ltb_lt in Hlt. rewrite Hlt in Hb. apply Z.ltb_lt in Hlt.
    exists 1%nat. eexists. split; [lia|]. split; [|cbn [raw diff]; split].
    + intros fuel. apply while_unroll; [|exact Hb].
      unfold recon_cond. destruct ks; [destruct j; discriminate Hnth|].
      rewrite andb_true_r. apply negb_true_iff. apply Z.eqb_neq. lia.
    + rewrite <- Hk. eapply dict_set_keys. eassumption.
    + split; [reflexivity|]. apply dict_set_slack; assumption.
  - assert (Hne : ks <> [])
      by (destruct ks; [destruct j; discriminate Hnth|discriminate]).
    assert (Hn : 0 < Z.of_nat (List.length ks))
      by (destruct ks; [congruence|simpl; lia]).
    pose proof (Z.mod_pos_bound (idx s) _ Hn) as Hb0.
    destruct (nth_error ks (Z.to_nat (idx s mod Z.of_nat (List.length ks))))
      as [k0|] eqn:Hnth0; [|apply nth_error_None in Hnth0; lia].
    destruct (dict_get_some k0 (raw s)) as [v0 Hv0];
      [rewrite Hk; eapply nth_error_In; eassumption|].
    pose proof (recon_body_at ks min_block s _ k0 v0
                  (eq_sym (Z2Nat.id _ (proj1 Hb0))) Hnth0 Hv0) as Hb.
    destruct (0 <? diff s) eqn:E; [apply Z.ltb_lt in E; lia|].
    assert (Hcond : recon_cond ks s = true).
    { unfold recon_cond. destruct ks; [congruence|].
      rewrite andb_true_r. apply negb_true_iff. apply Z.eqb_neq. lia. }
    destruct (min_block <? v0) eqn:Ehit.
    + apply Z.ltb_lt in Ehit.
      exists 1%nat. eexists. split; [lia|]. split; [|cbn [raw diff]; split].
      * intros fuel. apply while_unroll; [assumption|exact Hb].
      * rewrite <- Hk. eapply dict_set_keys. eassumption.
      * split; [reflexivity|]. apply dict_set_slack; assumption.
    + destruct (IH (mkRecon (raw s) (diff s) (idx s + 1)) j k v)
        as (turns & s' & Hturns & Hrun & Hk' & Hd' & Hs'); cbn [raw diff idx];
        try assumption.
      * rewrite <- Hmod. f_equal. lia.
      * exists (S turns), s'. split; [lia|]. split; [|auto].
        intros fuel. cbn [Nat.add].
        rewrite (while_unroll _ _ (turns + fuel) s _ Hcond Hb). apply Hrun.
Qed.

(** With distinct keys and enough slack, the loop comes down to the
    budget; [n] turns for each minute to take away suffice. *)
Lemma recon_returns_from_above (ks : list string) (min_block : Z) (e : nat) :
  NoDup ks -> ks <> [] ->
  forall s,
    keys (raw s) = ks -> diff s = - Z.of_nat e ->
    Z.of_nat e <= slack min_block (raw s) ->
    exists (turns : nat) (r : recon_state),
      (turns <= List.length ks * e)%nat /\
      while (recon_cond ks) (recon_body ks min_block) turns s = Returned r.
Proof.
  intros Hnd Hne. induction e as [|e IH]; intros s Hk Hd Hs.
  - exists 0%nat, s. split; [lia|]. apply while_exit.
    unfold recon_cond. simpl in Hd. rewrite Hd. reflexivity.
  - assert (Hn : 0 < Z.of_nat (List.length ks))
      by (destruct ks; [congruence|simpl; lia]).
    destruct (slack_positive_key min_block (raw s)) as (j & k & v & Hj & Hv & Hlt);
      [rewrite Hk; assumption|lia|].
    rewrite Hk in Hj.
    assert (Hjlt : (j < List.length ks)%nat)
      by (apply nth_error_Some; congruence).
    set (o := (Z.of_nat j - idx s) mod Z.of_nat (List.length ks)).
    pose proof (Z.mod_pos_bound (Z.of_nat j - idx s) _ Hn) as Ho. fold o in Ho.
    destruct (recon_progress ks min_block (Z.to_nat o) s j k v)
      as (turns & s' & Hturns & Hrun & Hk' & Hd' & Hs'); try assumption; try lia.
    { rewrite Z2Nat.id by lia. subst o.
      rewrite Z.add_mod_idemp_r by lia.
      replace (idx s + (Z.of_nat j - idx s)) with (Z.of_nat j) by lia.
      apply Z.mod_small. lia. }
    destruct (IH s') as (turns' & r & Hturns' & Hr); try assumption; try lia.
    exists (turns + turns')%nat, r. split; [|rewrite Hrun; assumption].
    assert (Z.to_nat o < List.length ks)%nat by lia. nia.
Qed.

(** X23: with distinct subjects, when the bumped allocations exceed the
    budget by no more than they hold above the minimum block, the
    reconciliation takes the surplus away and [distribute_time] returns;
    one round over the subjects for every surplus minute suffices. *)
Theorem distribute_time_returns_when_over :
  forall (fuel : nat) (total_minutes : Z) (weights : dict PyFloat.float)
         (min_block : Z) (raw1 : dict Z),
    weights <> [] ->
    NoDup (keys weights) ->
    0 < total_minutes ->
    initial_allocation total_minutes weights min_block = Returned raw1 ->
    total_minutes <= zsum (values raw1) ->
    zsum (values raw1) - total_minutes <= slack min_block raw1 ->
    (List.length weights * Z.to_nat (zsum (values raw1) - total_minutes)
     <= fuel)%nat ->
    exists alloc,
      distribute_time fuel total_minutes weights min_block = Returned alloc.
Proof.
  intros fuel total_minutes weights min_block raw1
         Hne Hnd Ht Hinit Hover Hslack Hfuel.
  unfold distribute_time.
  destruct (total_minutes <=? 0) eqn:Hle; [apply Z.leb_le in Hle; lia|].
  rewrite Hinit. cbn [bind].
  destruct (recon_returns_from_above (keys weights) min_block
              (Z.to_nat (zsum (values raw1) - total_minutes)) Hnd
              (keys_nonempty weights Hne)
              (mkRecon raw1 (total_minutes - zsum (values raw1)) 0))
    as (turns & r & Hturns & Hr); cbn [raw diff].
  - eapply initial_allocation_keys. eassumption.
  - lia.
  - lia.
  - assert (Hlen : List.length (keys weights) = List.length weights)
      by apply length_map.
    rewrite Hlen in Hturns.
    rewrite (while_mono _ _ turns fuel _ _ ltac:(lia) Hr). cbn [bind]. eauto.
Qed.

Lemma distribute_time_returns_when_over_witness :
  exists alloc,
    distribute_time 50 100 stuck_weights 25 = Returned alloc.
Proof.
  apply (distribute_time_returns_when_over 50 100 stuck_weights 25
           [("A", 25); ("B", 100)]%string).
  - discriminate.
  - repeat constructor; simpl; intuition discriminate.
  - lia.
  - vm_compute. reflexivity.
  - vm_compute. intros H. discriminate H.
  - vm_compute. intros H. discriminate H.
  - apply Nat.leb_le. vm_compute. reflexivity.
Defined.

(** The zero-weight subject keeps its minimum block and the other one
    pays for it. *)
Example distribute_time_lopsided :
  distribute_time 50 100 stuck_weights 25 =
  Returned [("A", 25); ("B", 75)]%string.
Proof. vm_compute. reflexivity. Qed.
